(** * StealthyScraper: a shallow embedding of [requester.SendRequest] and of the
    CLI's [headersFlag.Set], with the properties of its specification.

    Go strings are byte sequences: they are Rocq [string]s (one [ascii] per
    byte).  Go maps are [gmap]s; the order in which [range] visits a map is
    not fixed by the language, so it is an explicit argument of the model.
    Calls into the network (dial, handshake, close) are steps of a small
    state monad over a world that records the open connections and the
    trace of calls. *)

From Stdlib Require Import Ascii String List Bool Arith Lia.
From stdpp Require Import base option list gmap strings fin_maps.

Local Open Scope string_scope.
Local Open Scope nat_scope.

(** ** The Go runtime: errors, bytes, and what lies outside the program *)
Module go.

(** Go's [error] interface has one method, [Error() string]: an error is
    modelled by its message. *)
Definition error : Type := string.

Inductive result (A : Type) : Type :=
| Ok (a : A)
| Err (e : error).
Arguments Ok {A} a.
Arguments Err {A} e.

Definition between (lo hi : nat) (c : ascii) : bool :=
  (lo <=? nat_of_ascii c) && (nat_of_ascii c <=? hi).

Definition isUpperByte (c : ascii) : bool := between 65 90 c.
Definition isLowerByte (c : ascii) : bool := between 97 122 c.
Definition isDigitByte (c : ascii) : bool := between 48 57 c.

(** [utf8.RuneSelf = 0x80]: bytes below it are single-byte runes. *)
Definition RuneSelf : nat := 128.
Definition isASCIIByte (c : ascii) : bool := nat_of_ascii c <? RuneSelf.

(** [c += 'a' - 'A'] and [c -= 'a' - 'A'] on letters. *)
Definition toLowerByte (c : ascii) : ascii :=
  if isUpperByte c then ascii_of_nat (nat_of_ascii c + 32) else c.
Definition toUpperByte (c : ascii) : ascii :=
  if isLowerByte c then ascii_of_nat (nat_of_ascii c - 32) else c.

Fixpoint mapBytes (f : ascii -> ascii) (s : string) : string :=
  match s with
  | EmptyString => EmptyString
  | String c r => String (f c) (mapBytes f r)
  end.

Fixpoint allBytes (p : ascii -> bool) (s : string) : bool :=
  match s with
  | EmptyString => true
  | String c r => p c && allBytes p r
  end.

Definition isASCII (s : string) : bool := allBytes isASCIIByte s.

(** [s[i:j]] and [s[i:]] for indices in range. *)
Definition slice (s : string) (i j : nat) : string := substring i (j - i) s.
Definition sliceFrom (s : string) (i : nat) : string :=
  substring i (String.length s - i) s.

(** The token bytes of RFC 7230, as in [httpguts.isTokenTable] and in
    [textproto.validHeaderFieldByte]: letters, digits and
    [!#$%&'*+-.^_`|~]. *)
Definition isTokenByte (c : ascii) : bool :=
  isUpperByte c || isLowerByte c || isDigitByte c ||
  existsb (Nat.eqb (nat_of_ascii c))
    [33; 35; 36; 37; 38; 39; 42; 43; 45; 46; 94; 95; 96; 124; 126].

End go.

Import go.

(** ** Package [url] *)
Module url.

(** The fields of [url.URL] that the program's requests carry. *)
Record URL : Type := mkURL {
  Scheme : string;
  Opaque : string;
  Host : string;
  Path : string;
  RawQuery : string;
  Fragment : string
}.

End url.

(** ** What lies outside the program

    [strings.ToLower], [strings.ToUpper] and [strings.TrimSpace] take a fast
    path on ASCII input, written out in [strings] below, and otherwise go
    through Go's Unicode tables; [url.Parse] is the standard library's
    parser and [strconv.Quote] its string quoting.  None of them belongs to
    this program: they are the fields of a [Lib], over which the model is
    parametric. *)
Module runtime.

Record Lib : Type := mkLib {
  (** [strings.Map(unicode.ToLower, s)] *)
  unicode_MapToLower : string -> string;
  (** [strings.Map(unicode.ToUpper, s)] *)
  unicode_MapToUpper : string -> string;
  (** [strings.TrimFunc(s, unicode.IsSpace)] *)
  unicode_TrimFunc_IsSpace : string -> string;
  (** [strings.TrimRightFunc(s, unicode.IsSpace)] *)
  unicode_TrimRightFunc_IsSpace : string -> string;
  (** [url.Parse] *)
  url_Parse : string -> result url.URL;
  (** [strconv.Quote], the [%q] of [fmt] *)
  strconv_Quote : string -> string
}.

End runtime.

Import runtime.

(** ** Package [strings] *)
Module strings.

(** [strings.IndexByte]: the first index of [c], [None] for Go's [-1]. *)
Fixpoint IndexByte (s : string) (c : ascii) : option nat :=
  match s with
  | EmptyString => None
  | String d r => if Ascii.eqb d c then Some 0 else S <$> IndexByte r c
  end.

(** [strings.LastIndexByte]. *)
Fixpoint LastIndexByte (s : string) (c : ascii) : option nat :=
  match s with
  | EmptyString => None
  | String d r =>
      match LastIndexByte r c with
      | Some i => Some (S i)
      | None => if Ascii.eqb d c then Some 0 else None
      end
  end.

(** [strings.SplitN(s, sep, 2)] for a separator [sep] of one byte: [s] is
    cut at the first [sep]; without one, [s] comes back alone. *)
Definition SplitN2 (s : string) (sep : ascii) : list string :=
  match IndexByte s sep with
  | Some m => [slice s 0 m; sliceFrom s (m + 1)]
  | None => [s]
  end.

(** [strings.TrimSuffix(s, suffix)] for a suffix of one byte. *)
Definition TrimSuffix1 (s : string) (suffix : ascii) : string :=
  match LastIndexByte s suffix with
  | Some i => if i + 1 =? String.length s then slice s 0 i else s
  | None => s
  end.

(** [asciiSpace]: tab, newline, vertical tab, form feed, return, space. *)
Definition asciiSpace (c : ascii) : bool :=
  between 9 13 c || (nat_of_ascii c =? 32).

Section WithLib.
Variable L : Lib.

(** [strings.ToLower]: an all-ASCII string is mapped byte by byte, any
    other string rune by rune through the Unicode tables. *)
Definition ToLower (s : string) : string :=
  if isASCII s then mapBytes toLowerByte s else unicode_MapToLower L s.

(** [strings.ToUpper]. *)
Definition ToUpper (s : string) : string :=
  if isASCII s then mapBytes toUpperByte s else unicode_MapToUpper L s.

(** The second loop of [strings.TrimSpace], on the bytes of [s[start:]]
    in reverse order: [stop] moves left over ASCII spaces and the Unicode
    path takes over at the first non-ASCII byte. *)
Fixpoint trimStop (rev_bytes : list ascii) : string :=
  match rev_bytes with
  | [] => EmptyString
  | c :: rest =>
      if negb (isASCIIByte c)
      then unicode_TrimRightFunc_IsSpace L
             (string_of_list_ascii (rev rev_bytes))
      else if asciiSpace c then trimStop rest
      else string_of_list_ascii (rev rev_bytes)
  end.

(** [strings.TrimSpace]: the first loop drops leading ASCII spaces and
    hands over to the Unicode path at the first non-ASCII byte. *)
Fixpoint TrimSpace (s : string) : string :=
  match s with
  | EmptyString => EmptyString
  | String c r =>
      if negb (isASCIIByte c) then unicode_TrimFunc_IsSpace L s
      else if asciiSpace c then TrimSpace r
      else trimStop (rev (list_ascii_of_string s))
  end.
End WithLib.

End strings.

(** ** Package [net]: addresses *)
Module net.

(** An [*net.AddrError], by its message. *)
Definition addrErr (addr why : string) : result (string * string) :=
  if String.eqb addr "" then Err why
  else Err ("address " ++ addr ++ ": " ++ why).

Definition missingPort : string := "missing port in address".
Definition tooManyColons : string := "too many colons in address".

Definition hasByte (s : string) (c : ascii) : bool :=
  bool_decide (is_Some (strings.IndexByte s c)).

(** [net.SplitHostPort]: the port starts after the last colon; a host in
    brackets must end just before it; no other bracket or colon may occur. *)
Definition SplitHostPort (hostport : string) : result (string * string) :=
  match strings.LastIndexByte hostport ":" with
  | None => addrErr hostport missingPort
  | Some i =>
      let finish (host : string) (j k : nat) :=
        if hasByte (sliceFrom hostport j) "["
        then addrErr hostport "unexpected '[' in address"
        else if hasByte (sliceFrom hostport k) "]"
        then addrErr hostport "unexpected ']' in address"
        else Ok (host, sliceFrom hostport (i + 1)) in
      if bool_decide (String.get 0 hostport = Some "["%char) then
        match strings.IndexByte hostport "]" with
        | None => addrErr hostport "missing ']' in address"
        | Some e =>
            if e + 1 =? String.length hostport
            then addrErr hostport missingPort
            else if e + 1 =? i
            then finish (slice hostport 1 e) 1 (e + 1)
            else if bool_decide (String.get (e + 1) hostport = Some ":"%char)
            then addrErr hostport tooManyColons
            else addrErr hostport missingPort
        end
      else
        let host := slice hostport 0 i in
        if hasByte host ":"
        then addrErr hostport tooManyColons
        else finish host 0 0
  end.

End net.

(** ** Package [textproto] *)
Module textproto.

(** The loop of [canonicalMIMEHeaderKey]: the first letter and every letter
    after a dash go to upper case, the others to lower case. *)
Fixpoint canonLoop (upper : bool) (a : string) : string :=
  match a with
  | EmptyString => EmptyString
  | String c r =>
      let c' := if upper then toUpperByte c else toLowerByte c in
      String c' (canonLoop (Ascii.eqb c' "-") r)
  end.

(** [textproto.CanonicalMIMEHeaderKey]: a key with a byte that is not a
    token byte (a space included) is returned unchanged; any other key is
    returned in canonical form. *)
Definition CanonicalMIMEHeaderKey (s : string) : string :=
  if allBytes isTokenByte s then canonLoop true s else s.

End textproto.

(** ** Package [net/http]: headers and requests *)
Module http.

(** [http.Header] is [map[string][]string]. *)
Abbreviation Header := (gmap string (list string)).

(** [Header.Set]: the values of the canonical key are replaced by one. *)
Definition Header_Set (h : Header) (key value : string) : Header :=
  <[textproto.CanonicalMIMEHeaderKey key := [value]]> h.

(** [Header.Values]: all values of the canonical key. *)
Definition Header_Values (h : Header) (key : string) : list string :=
  default [] (h !! textproto.CanonicalMIMEHeaderKey key).

(** [Header.Get]: the first value of the canonical key, or the empty
    string. *)
Definition Header_Get (h : Header) (key : string) : string :=
  match Header_Values h key with
  | v :: _ => v
  | [] => ""
  end.

(** A request body: [http.NoBody], or a reader over the bytes not yet
    read. *)
Inductive Body : Type :=
| NoBody
| ReaderBody (unread : string).

(** [io.ReadAll] on a body. *)
Definition ReadAll (b : Body) : string :=
  match b with
  | NoBody => ""
  | ReaderBody s => s
  end.

Record Request : Type := mkRequest {
  Method : string;
  URL : url.URL;
  Header_ : Header;
  Body_ : Body;
  ContentLength : nat;
  Host : string
}.

(** [validMethod]: not empty, and token bytes only. *)
Definition validMethod (method : string) : bool :=
  (0 <? String.length method) && allBytes isTokenByte method.

(** [hasPort]: the last colon lies after the last closing bracket. *)
Definition hasPort (s : string) : bool :=
  match strings.LastIndexByte s ":", strings.LastIndexByte s "]" with
  | Some i, Some j => j <? i
  | Some _, None => true
  | None, _ => false
  end.

(** [removeEmptyPort]: strips the colon of a [host:] without a port. *)
Definition removeEmptyPort (host : string) : string :=
  if hasPort host then strings.TrimSuffix1 host ":" else host.

(** [strings.NewReader(s)]: a reader over the bytes of [s], none read yet. *)
Definition NewReader (s : string) : string := s.

Section WithLib.
Variable L : Lib.

(** [http.NewRequest] with a [*strings.Reader] as body: an empty method
    means GET; the method must be a token and the URL must parse; a reader
    with nothing to read becomes [NoBody]. *)
Definition NewRequest (method url : string) (body : string)
  : result Request :=
  let method := if String.eqb method "" then "GET" else method in
  if negb (validMethod method)
  then Err ("net/http: invalid method " ++ strconv_Quote L method)
  else
    match url_Parse L url with
    | Err e => Err e
    | Ok u =>
        let host := removeEmptyPort (url.Host u) in
        let u := url.mkURL (url.Scheme u) (url.Opaque u) host (url.Path u)
                   (url.RawQuery u) (url.Fragment u) in
        let len := String.length body in
        Ok {| Method := method;
              URL := u;
              Header_ := ∅;
              Body_ := if len =? 0 then NoBody else ReaderBody body;
              ContentLength := len;
              Host := host |}
    end.
End WithLib.

End http.

(** ** Package [utls] *)
Module utls.

(** The handshake descriptors the program names. *)
Inductive ClientHelloID : Type :=
| HelloChrome_108
| HelloFirefox_108
| HelloIOS_16
| HelloSafari_16_0
| HelloRandomized.

Record Config : Type := mkConfig {
  ServerName : string;
  InsecureSkipVerify : bool
}.

(** A raw connection is known by its descriptor. *)
Definition Conn : Type := nat.

(** [utls.UClient(conn, config, id)]: the connection wrapped, not yet
    shaken hands over. *)
Record UConn : Type := UClient {
  conn : Conn;
  config : Config;
  clientHelloID : ClientHelloID
}.

End utls.

(** ** The world outside: the network, as a state monad *)
Module world.
Import utls.

(** [net.Dialer], its durations in seconds. *)
Record Dialer : Type := mkDialer {
  Timeout : nat;
  KeepAlive : nat
}.

(** The calls that reach the network. *)
Inductive event : Type :=
| EvDial (d : Dialer) (network addr : string)
| EvHandshake (u : UConn)
| EvClose (c : Conn).

(** The world: the raw connections that are open, and the calls made so
    far, oldest first. *)
Record World : Type := mkWorld {
  open : gset Conn;
  trace : list event
}.

Definition IO (A : Type) : Type := World -> A * World.

Definition ret {A} (a : A) : IO A := fun w => (a, w).
Definition bind {A B} (m : IO A) (k : A -> IO B) : IO B :=
  fun w => let (a, w') := m w in k a w'.

(** What the peer and the network answer, given the calls made so far. *)
Record Network : Type := mkNetwork {
  net_Dial : list event -> Dialer -> string -> string -> result Conn;
  tls_Handshake : list event -> UConn -> option error
}.

Definition log (e : event) (w : World) : list event := trace w ++ [e].

(** [dialer.Dial(network, addr)]: a connection that is returned is open. *)
Definition Dialer_Dial (N : Network) (d : Dialer) (network addr : string)
  : IO (result Conn) :=
  fun w =>
    let r := net_Dial N (trace w) d network addr in
    (r, {| open := match r with
                   | Ok c => {[c]} ∪ open w
                   | Err _ => open w
                   end;
           trace := log (EvDial d network addr) w |}).

(** [uconn.Handshake()]: [None] is Go's [nil] error. *)
Definition UConn_Handshake (N : Network) (u : UConn) : IO (option error) :=
  fun w =>
    (tls_Handshake N (trace w) u,
     {| open := open w; trace := log (EvHandshake u) w |}).

(** [uconn.Close()]: closes the connection it wraps. *)
Definition UConn_Close (u : UConn) : IO unit :=
  fun w =>
    (tt, {| open := open w ∖ {[conn u]}; trace := log (EvClose (conn u)) w |}).

(** The error of a failed [dialer.Dial] is an [*net.OpError] whose [Op] is
    [dial]: its message reads [dial <network> <address>: <cause>].  This is
    the test for it. *)
Definition isDialError (e : error) : bool := String.prefix "dial " e.

(** What the Go library promises of the answers of a network: every error
    of [dialer.Dial] is a dial error, and no error of [uconn.Handshake],
    which reads and writes but never dials, is one. *)
Definition goNetwork (N : Network) : Prop :=
  (forall (tr : list event) (d : Dialer) (network addr : string) (e : error),
     net_Dial N tr d network addr = Err e -> isDialError e = true) /\
  (forall (tr : list event) (u : UConn) (e : error),
     tls_Handshake N tr u = Some e -> isDialError e = false).

End world.

Declare Scope io_scope.
Delimit Scope io_scope with io.
Notation "x <- m ;; k" := (world.bind m (fun x => k))
  (at level 100, m at next level, right associativity) : io_scope.
Notation "m ;;; k" := (world.bind m (fun _ => k))
  (at level 100, right associativity) : io_scope.

(** ** Package [net/http]: the client *)
Module client.
Import utls world.

(** [crypto/tls.Config], the field the program sets. *)
Record tls_Config : Type := mk_tls_Config {
  tls_InsecureSkipVerify : bool
}.

Record Transport : Type := mkTransport {
  DialTLS : string -> string -> IO (result UConn);
  TLSClientConfig : tls_Config
}.

(** [http.Client], its timeout in seconds. *)
Record Client : Type := mkClient {
  Transport_ : Transport;
  Client_Timeout : nat
}.

Record Response : Type := mkResponse {
  Status : string;
  Response_Header : http.Header;
  Response_Body : string
}.

(** [client.Do] is the standard library's: what it does with a client and a
    request is part of the world. *)
Definition Do : Type := Client -> http.Request -> IO (result Response).

End client.

(** ** Package [requester] (requester/requester.go) *)
Module requester.
Import utls world client.

Record RequestParams : Type := mkRequestParams {
  URL : string;
  Method : string;
  JA3Profile : string;
  Headers : gmap string string;
  RequestBody : string
}.

Definition UA_Chrome : string :=
  "Mozilla/5.0 (Windows NT 10.0; Win64; x64) AppleWebKit/537.36 (KHTML, like Gecko) Chrome/108.0.0.0 Safari/537.36".
Definition UA_Firefox : string :=
  "Mozilla/5.0 (Windows NT 10.0; Win64; x64; rv:108.0) Gecko/20100101 Firefox/108.0".
Definition UA_Safari : string :=
  "Mozilla/5.0 (Macintosh; Intel Mac OS X 10_15_7) AppleWebKit/605.1.15 (KHTML, like Gecko) Version/16.1 Safari/605.1.15".

(** The custom [DialTLS] function (lines 54-82), a closure over [dialer] and
    [clientHello]. *)
Definition dialTLS (N : Network) (dialer : Dialer) (clientHello : ClientHelloID)
    (network addr : string) : IO (result UConn) :=
  (rawConn <- Dialer_Dial N dialer network addr ;;
   match rawConn with
   | Err err => ret (Err err)
   | Ok rawConn =>
       let host := match net.SplitHostPort addr with
                   | Ok (host, _) => host
                   | Err _ => addr
                   end in
       let config := {| ServerName := host; InsecureSkipVerify := true |} in
       let uconn := UClient rawConn config clientHello in
       err <- UConn_Handshake N uconn ;;
       match err with
       | Some err => (UConn_Close uconn ;;; ret (Err err))
       | None => ret (Ok uconn)
       end
   end)%io.

(** Step 3 (lines 85-91): the client with the custom transport. *)
Definition newClient (N : Network) (dialer : Dialer)
    (clientHello : ClientHelloID) : Client :=
  {| Transport_ :=
       {| DialTLS := dialTLS N dialer clientHello;
          TLSClientConfig := {| tls_InsecureSkipVerify := true |} |};
     Client_Timeout := 60 |}.

Section WithLib.
Variable L : Lib.

(** Step 1 (lines 28-43): the switch on the lower-cased profile name. *)
Definition selectClientHello (profile : string) : ClientHelloID :=
  let name := strings.ToLower L profile in
  if String.eqb name "chrome" then HelloChrome_108
  else if String.eqb name "firefox" then HelloFirefox_108
  else if String.eqb name "ios" then HelloIOS_16
  else if String.eqb name "safari" then HelloSafari_16_0
  else if String.eqb name "random" then HelloRandomized
  else HelloChrome_108.

(** Lines 106-118: the default User-Agent, set when the caller's map has
    no entry under the key [User-Agent]. *)
Definition setDefaultUserAgent (params : RequestParams) (h : http.Header)
  : http.Header :=
  match Headers params !! "User-Agent" with
  | Some _ => h
  | None =>
      let name := strings.ToLower L (JA3Profile params) in
      if String.eqb name "chrome" then http.Header_Set h "User-Agent" UA_Chrome
      else if String.eqb name "firefox" then http.Header_Set h "User-Agent" UA_Firefox
      else if String.eqb name "safari" then http.Header_Set h "User-Agent" UA_Safari
      else http.Header_Set h "User-Agent" UA_Chrome
  end.

(** The value that switch sets for a profile name. *)
Definition defaultUserAgent (profile : string) : string :=
  let name := strings.ToLower L profile in
  if String.eqb name "chrome" then UA_Chrome
  else if String.eqb name "firefox" then UA_Firefox
  else if String.eqb name "safari" then UA_Safari
  else UA_Chrome.

(** Lines 120-123: [for key, value := range params.Headers], in the order
    [visit] in which the loop meets the entries. *)
Definition addCustomHeaders (visit : list (string * string))
    (h : http.Header) : http.Header :=
  fold_left (fun h kv => http.Header_Set h kv.1 kv.2) visit h.

(** Step 4 (lines 93-123): the request handed to [client.Do]. *)
Definition buildRequest (params : RequestParams)
    (visit : list (string * string)) : result http.Request :=
  let bodyReader :=
    if negb (String.eqb (RequestBody params) "")
    then http.NewReader (RequestBody params)
    else http.NewReader "" in
  match http.NewRequest L (Method params) (URL params) bodyReader with
  | Err err => Err err
  | Ok req =>
      Ok {| http.Method := http.Method req;
            http.URL := http.URL req;
            http.Header_ :=
              addCustomHeaders visit
                (setDefaultUserAgent params (http.Header_ req));
            http.Body_ := http.Body_ req;
            http.ContentLength := http.ContentLength req;
            http.Host := http.Host req |}
  end.

(** [SendRequest] (lines 26-127). *)
Definition SendRequest (N : Network) (client_Do : Do)
    (params : RequestParams) (visit : list (string * string))
  : IO (result Response) :=
  let clientHello := selectClientHello (JA3Profile params) in
  let dialer := {| Timeout := 30; KeepAlive := 30 |} in
  let client := newClient N dialer clientHello in
  match buildRequest params visit with
  | Err err => ret (Err err)
  | Ok req => client_Do client req
  end.
End WithLib.

(** The method [http.NewRequest] works with. *)
Definition methodOrGET (method : string) : string :=
  if String.eqb method "" then "GET" else method.

(** The request [buildRequest] assembles from a parsed URL. *)
Definition assembled (L : Lib) (params : RequestParams)
    (visit : list (string * string)) (u : url.URL) : http.Request :=
  {| http.Method := methodOrGET (Method params);
     http.URL :=
       url.mkURL (url.Scheme u) (url.Opaque u)
         (http.removeEmptyPort (url.Host u)) (url.Path u) (url.RawQuery u)
         (url.Fragment u);
     http.Header_ := addCustomHeaders visit (setDefaultUserAgent L params ∅);
     http.Body_ :=
       if String.length (RequestBody params) =? 0 then http.NoBody
       else http.ReaderBody (RequestBody params);
     http.ContentLength := String.length (RequestBody params);
     http.Host := http.removeEmptyPort (url.Host u) |}.

(** The SNI value [dialTLS] computes (lines 61-65). *)
Definition sniHost (addr : string) : string :=
  match net.SplitHostPort addr with
  | Ok (host, _) => host
  | Err _ => addr
  end.

(** The orders in which [range] may visit a map: every entry once. *)
Definition rangeOrder (m : gmap string string) (visit : list (string * string))
  : Prop :=
  visit ≡ₚ map_to_list m.

End requester.

(** ** Package [main] (main.go) *)
Module main.

Section WithLib.
Variable L : Lib.

(** [headersFlag.Set] (lines 24-33) on the map [h] points to: the error,
    if any, and the map afterwards. *)
Definition Set_ (h : gmap string string) (value : string)
  : option error * gmap string string :=
  let parts := strings.SplitN2 value ":" in
  match parts with
  | [p0; p1] =>
      let key := strings.TrimSpace L p0 in
      let val := strings.TrimSpace L p1 in
      (None, <[key := val]> h)
  | _ => (Some "header must be in 'Key: Value' format", h)
  end.

(** Lines 65-71: the parameters [main] passes to [SendRequest]. *)
Definition params (url method ja3Profile data : string)
    (headers : gmap string string) : requester.RequestParams :=
  {| requester.URL := url;
     requester.Method := strings.ToUpper L method;
     requester.JA3Profile := ja3Profile;
     requester.Headers := headers;
     requester.RequestBody := data |}.
End WithLib.

(** [headersFlag.String] (lines 20-22). *)
Definition String_ : string := "Custom headers".

(** A line feed. *)
Definition nl : string := String (ascii_of_nat 10) EmptyString.

(** What a run of the CLI leaves behind: what it wrote to the two streams,
    its exit status, and whether the deferred [resp.Body.Close()] ran. *)
Record Outcome : Type := mkOutcome {
  stdout : string;
  stderr : string;
  exitCode : nat;
  bodyClosed : bool
}.

(** What the process gets from its environment: [os.Args[0]], the text
    [flag.PrintDefaults] prints, and what [io.ReadAll] makes of the body of
    a response. *)
Record OS : Type := mkOS {
  os_Args0 : string;
  flag_PrintDefaults : string;
  io_ReadAll : client.Response -> result string
}.

(** The response headers as lines 82-86 print them, the map visited in the
    order [hvisit]: one line for each value. *)
Fixpoint printValues (key : string) (values : list string) : string :=
  match values with
  | [] => ""
  | value :: rest => key ++ ": " ++ value ++ nl ++ printValues key rest
  end.

Fixpoint printHeaders (hvisit : list (string * list string)) : string :=
  match hvisit with
  | [] => ""
  | (key, values) :: rest => printValues key values ++ printHeaders rest
  end.

(** [flag.Usage] as line 48 sets it. *)
Definition usage (os : OS) : string :=
  "Usage of " ++ os_Args0 os ++ ":" ++ nl ++
  os_Args0 os ++ " [flags] <URL>" ++ nl ++
  flag_PrintDefaults os.

Section Program.
Variable L : Lib.

(** The calls [flag.Parse] (line 54) makes to [Set], one for each [-H] of
    the command line, in their order; the first error ends the parse (and,
    the flag set being [ExitOnError], the process). *)
Fixpoint SetAll (h : gmap string string) (values : list string)
  : option error * gmap string string :=
  match values with
  | [] => (None, h)
  | value :: rest =>
      match Set_ L h value with
      | (Some err, h') => (Some err, h')
      | (None, h') => SetAll h' rest
      end
  end.

(** The values of the flags of lines 40-46. *)
Record Flags : Type := mkFlags {
  flag_method : string;
  flag_ja3 : string;
  flag_data : string;
  flag_H : gmap string string
}.

(** Their defaults: [GET], [Chrome], no data, and the empty map. *)
Definition defaults : Flags := mkFlags "GET" "Chrome" "" ∅.

(** How [flag.parseOne] reads one argument: not a flag (fewer than two
    bytes, or no leading [-]); the terminator [--]; a flag with its name
    and, after [=], its value; or bad syntax (a name that is empty or
    starts with [-] or [=]). *)
Inductive ArgKind : Type :=
| NotFlag
| Terminator
| BadSyntax
| IsFlag (name : string) (value : option string).

(** The name up to the first [=] that is not its first byte, and the value
    after it. *)
Definition splitName (name : string) : ArgKind :=
  match name with
  | EmptyString => BadSyntax
  | String n0 more =>
      if Ascii.eqb n0 "-" || Ascii.eqb n0 "=" then BadSyntax
      else
        match strings.IndexByte more "=" with
        | Some j => IsFlag (String n0 (slice more 0 j))
                      (Some (sliceFrom more (j + 1)))
        | None => IsFlag name None
        end
  end.

Definition parseArg (s : string) : ArgKind :=
  match s with
  | String d (String c more) =>
      if negb (Ascii.eqb d "-") then NotFlag
      else if Ascii.eqb c "-"
      then match more with
           | EmptyString => Terminator
           | _ => splitName more
           end
      else splitName (String c more)
  | _ => NotFlag
  end.

(** The flags the program defines (lines 40-46). *)
Definition isFormal (name : string) : bool :=
  String.eqb name "method" || String.eqb name "ja3" ||
  String.eqb name "data" || String.eqb name "H".

(** The outcome of [flag.Parse]: the flags and the arguments that remain,
    or, the flag set being [ExitOnError], the end of the process with a
    status and what was written to the standard error. *)
Inductive ParseResult : Type :=
| Parsed (fl : Flags) (args : list string)
| Exited (code : nat) (err : string).

(** [flag.Value.Set] of a defined flag: a string flag takes any value, the
    header flag what [headersFlag.Set] accepts. *)
Definition setFlag (fl : Flags) (name value : string) : result Flags :=
  if String.eqb name "method"
  then Ok (mkFlags value (flag_ja3 fl) (flag_data fl) (flag_H fl))
  else if String.eqb name "ja3"
  then Ok (mkFlags (flag_method fl) value (flag_data fl) (flag_H fl))
  else if String.eqb name "data"
  then Ok (mkFlags (flag_method fl) (flag_ja3 fl) value (flag_H fl))
  else
    match Set_ L (flag_H fl) value with
    | (None, h) => Ok (mkFlags (flag_method fl) (flag_ja3 fl) (flag_data fl) h)
    | (Some err, _) =>
        Err ("invalid value " ++ strconv_Quote L value ++ " for flag -" ++
             name ++ ": " ++ err)
    end.

(** [failf]: the message on a line of the standard error, then the
    usage. *)
Definition failf (os : OS) (msg : string) : string := msg ++ nl ++ usage os.

(** [flag.Parse] (line 54) on the arguments after the program's name:
    [parseOne] again and again, until an argument is not a flag or the
    process ends: with status 0 after [-h] or [-help], which is not defined
    and prints the usage, and with status 2 after an error. *)
Fixpoint flag_Parse (os : OS) (fl : Flags) (args : list string)
  : ParseResult :=
  match args with
  | [] => Parsed fl []
  | s :: rest =>
      match parseArg s with
      | NotFlag => Parsed fl (s :: rest)
      | Terminator => Parsed fl rest
      | BadSyntax => Exited 2 (failf os ("bad flag syntax: " ++ s))
      | IsFlag name given =>
          if isFormal name then
            match given with
            | Some value =>
                match setFlag fl name value with
                | Ok fl' => flag_Parse os fl' rest
                | Err msg => Exited 2 (failf os msg)
                end
            | None =>
                match rest with
                | value :: rest' =>
                    match setFlag fl name value with
                    | Ok fl' => flag_Parse os fl' rest'
                    | Err msg => Exited 2 (failf os msg)
                    end
                | [] =>
                    Exited 2
                      (failf os ("flag needs an argument: -" ++ name))
                end
            end
          else if String.eqb name "help" || String.eqb name "h"
          then Exited 0 (usage os)
          else
            Exited 2
              (failf os ("flag provided but not defined: -" ++ name))
      end
  end.

(** [main] (lines 56-95) from the end of [flag.Parse] on: [method],
    [ja3Profile] and [data] are the values of the flags, [headers] the map
    the [-H] flags filled, [args] the arguments that remain.  [visit] is
    the order in which the request's header map is visited, [hrange] the
    order in which a response's header map is.  [log] writes to the
    standard error, and [log.Fatalf] leaves with status 1 without running
    what was deferred. *)
Definition main_ (N : world.Network) (client_Do : client.Do) (os : OS)
    (method ja3Profile data : string) (headers : gmap string string)
    (args : list string) (visit : list (string * string))
    (hrange : http.Header -> list (string * list string))
  : world.IO Outcome :=
  match args with
  | [url] =>
      (r <- requester.SendRequest L N client_Do
              (params L url method ja3Profile data headers) visit ;;
       match r with
       | Err err =>
           world.ret
             {| stdout := "";
                stderr := "Error sending request: " ++ err ++ nl;
                exitCode := 1;
                bodyClosed := false |}
       | Ok resp =>
           let head :=
             "HTTP/1.1 " ++ client.Status resp ++ nl ++
             printHeaders (hrange (client.Response_Header resp)) ++ nl in
           match io_ReadAll os resp with
           | Err err =>
               world.ret
                 {| stdout := "";
                    stderr :=
                      head ++ "Error reading response body: " ++ err ++ nl;
                    exitCode := 1;
                    bodyClosed := false |}
           | Ok body =>
               world.ret
                 {| stdout := body ++ nl;
                    stderr := head;
                    exitCode := 0;
                    bodyClosed := true |}
           end
       end)%io
  | _ =>
      world.ret
        {| stdout := "";
           stderr := "Error: You must specify exactly one URL." ++ nl ++ usage os;
           exitCode := 1;
           bodyClosed := false |}
  end.

(** [main] (lines 35-95), given the arguments after the program's name:
    [range] is the order in which the map of the request's headers is
    visited. *)
Definition run (N : world.Network) (client_Do : client.Do) (os : OS)
    (argv : list string)
    (range : gmap string string -> list (string * string))
    (hrange : http.Header -> list (string * list string))
  : world.IO Outcome :=
  match flag_Parse os defaults argv with
  | Exited code err =>
      world.ret
        {| stdout := ""; stderr := err; exitCode := code;
           bodyClosed := false |}
  | Parsed fl args =>
      main_ N client_Do os (flag_method fl) (flag_ja3 fl) (flag_data fl)
        (flag_H fl) args (range (flag_H fl)) hrange
  end.
End Program.

End main.

(** ** A library instance to run the model on ASCII inputs *)
Module sample.

Definition quote : ascii := ascii_of_nat 34.

(** Splits [scheme://host/path]; a string without [://] is a path. *)
Definition Parse (s : string) : result url.URL :=
  match strings.IndexByte s ":" with
  | Some i =>
      if String.eqb (slice s (i + 1) (i + 3)) "//" then
        let rest := sliceFrom s (i + 3) in
        match strings.IndexByte rest "/" with
        | Some j =>
            Ok (url.mkURL (slice s 0 i) "" (slice rest 0 j) (sliceFrom rest j) "" "")
        | None => Ok (url.mkURL (slice s 0 i) "" rest "" "" "")
        end
      else Ok (url.mkURL (slice s 0 i) (sliceFrom s (i + 1)) "" "" "" "")
  | None => Ok (url.mkURL "" "" "" s "" "")
  end.

(** The Unicode paths are never taken on ASCII input: they are left as the
    identity. *)
Definition lib : Lib :=
  {| unicode_MapToLower := id;
     unicode_MapToUpper := id;
     unicode_TrimFunc_IsSpace := id;
     unicode_TrimRightFunc_IsSpace := id;
     url_Parse := Parse;
     strconv_Quote := fun s => String quote (s ++ String quote EmptyString) |}.

(** A network on which every dial gives connection 7 and every handshake
    succeeds, one that refuses every dial, and one whose peer rejects every
    handshake. *)
Definition friendly : world.Network :=
  {| world.net_Dial := fun _ _ _ _ => Ok 7;
     world.tls_Handshake := fun _ _ => None |}.
Definition unreachable : world.Network :=
  {| world.net_Dial := fun _ _ _ _ => Err "i/o timeout";
     world.tls_Handshake := fun _ _ => None |}.
Definition hostile : world.Network :=
  {| world.net_Dial := fun _ _ _ _ => Ok 7;
     world.tls_Handshake := fun _ _ => Some "i/o timeout" |}.

Definition w0 : world.World := {| world.open := ∅; world.trace := [] |}.

(** Two networks with errors as Go words them: one that refuses every
    connection, and one whose peer rejects every handshake. *)
Definition refusing : world.Network :=
  {| world.net_Dial := fun _ _ _ _ =>
       Err "dial tcp 93.184.216.34:443: connect: connection refused";
     world.tls_Handshake := fun _ _ => None |}.
Definition rejecting : world.Network :=
  {| world.net_Dial := fun _ _ _ _ => Ok 7;
     world.tls_Handshake := fun _ _ =>
       Some "remote error: tls: handshake failure" |}.

(** A request to [https://example.com/]. *)
Definition params (method profile : string) (headers : gmap string string)
    (body : string) : requester.RequestParams :=
  {| requester.URL := "https://example.com/";
     requester.Method := method;
     requester.JA3Profile := profile;
     requester.Headers := headers;
     requester.RequestBody := body |}.

Definition example_com : url.URL :=
  url.mkURL "https" "" "example.com" "/" "" "".

(** A server that answers every request with [200 OK] and the body [hi],
    without touching the network, and a process called [scraper]. *)
Definition ok_response : client.Response :=
  {| client.Status := "200 OK";
     client.Response_Header := {["Server" := ["a"; "b"]]};
     client.Response_Body := "hi" |}.
Definition answers : client.Do := fun _ _ => world.ret (Ok ok_response).
Definition os : main.OS :=
  {| main.os_Args0 := "scraper";
     main.flag_PrintDefaults := "";
     main.io_ReadAll := fun resp => Ok (client.Response_Body resp) |}.

End sample.


(** ** What the specification talks about *)
Module spec.

(** [name] is [canonical] in some capitalization: byte by byte the same, or
    the capital (32 below) of a lower-case letter of [canonical]. *)
Fixpoint capitalizationOf (canonical name : string) : Prop :=
  match canonical, name with
  | EmptyString, EmptyString => True
  | String b canonical', String a name' =>
      (a = b \/
       (isLowerByte b = true /\ nat_of_ascii a + 32 = nat_of_ascii b)) /\
      capitalizationOf canonical' name'
  | _, _ => False
  end.

(** The names of the profile table. *)
Definition profiles : list string :=
  ["chrome"; "firefox"; "ios"; "safari"; "random"].

(** The byte [c] occurs in [s]. *)
Definition hasByte (c : ascii) (s : string) : Prop :=
  In c (list_ascii_of_string s).

(** [key] names the identification header. *)
Definition isUserAgent (key : string) : Prop :=
  textproto.CanonicalMIMEHeaderKey key = "User-Agent".

(** Two keys name the same header. *)
Definition sameHeader (key key' : string) : Prop :=
  textproto.CanonicalMIMEHeaderKey key = textproto.CanonicalMIMEHeaderKey key'.

(** The values of a header collection, each with its key, in the order
    of the collection; and the lines [key: value] for such a list. *)
Definition occurrences (h : list (string * list string))
  : list (string * string) :=
  flat_map (fun kv => map (pair kv.1) kv.2) h.

Definition linesOf (occ : list (string * string)) : string :=
  fold_right (fun kv rest => kv.1 ++ ": " ++ kv.2 ++ main.nl ++ rest)%string
    "" occ.

(** A host or port without colon or bracket. *)
Definition plain (s : string) : Prop :=
  ~ hasByte ":" s /\ ~ hasByte "[" s /\ ~ hasByte "]" s.

End spec.

(** * Properties *)

Import utls world client requester.
Local Open Scope list_scope.

(** ** The model on inputs *)

Example SplitHostPort_host_port :
  net.SplitHostPort "example.com:443" = Ok ("example.com", "443").
Proof. reflexivity. Qed.

Example SplitHostPort_ipv6 :
  net.SplitHostPort "[::1]:443" = Ok ("::1", "443").
Proof. reflexivity. Qed.

Example SplitHostPort_no_port :
  net.SplitHostPort "example.com" =
    Err "address example.com: missing port in address".
Proof. reflexivity. Qed.

Example SplitHostPort_colons :
  net.SplitHostPort "::1:443" =
    Err "address ::1:443: too many colons in address".
Proof. reflexivity. Qed.

Example CanonicalMIMEHeaderKey_examples :
  textproto.CanonicalMIMEHeaderKey "user-agent" = "User-Agent" /\
  textproto.CanonicalMIMEHeaderKey "x-FOO-bar" = "X-Foo-Bar" /\
  textproto.CanonicalMIMEHeaderKey "x FOO-bar" = "x FOO-bar".
Proof. repeat split. Qed.

Example TrimSpace_example (L : Lib) :
  strings.TrimSpace L "  application/json  " = "application/json".
Proof. reflexivity. Qed.

Example ToLower_example (L : Lib) : strings.ToLower L "FireFox" = "firefox".
Proof. reflexivity. Qed.

Example NewRequest_example :
  http.NewRequest sample.lib "" "https://example.com:/" "" =
    Ok {| http.Method := "GET";
          http.URL := sample.example_com;
          http.Header_ := ∅;
          http.Body_ := http.NoBody;
          http.ContentLength := 0;
          http.Host := "example.com" |}.
Proof. reflexivity. Qed.

Example NewRequest_bad_method :
  exists e, http.NewRequest sample.lib "GE T" "https://example.com/" "" = Err e.
Proof. eexists. reflexivity. Qed.

Example dialTLS_rejected :
  dialTLS sample.hostile (mkDialer 30 30) HelloIOS_16 "tcp" "example.com:443"
    sample.w0 =
  (Err "i/o timeout",
   {| open := ({[7]} ∪ ∅) ∖ {[7]};
      trace :=
        [EvDial (mkDialer 30 30) "tcp" "example.com:443";
         EvHandshake (UClient 7 (mkConfig "example.com" true) HelloIOS_16);
         EvClose 7] |}).
Proof. reflexivity. Qed.

(** ** Bytes and strings *)

Lemma toLowerByte_ascii (c : ascii) :
  isASCIIByte (toLowerByte c) = isASCIIByte c.
Proof. destruct c as [[] [] [] [] [] [] [] []]; reflexivity. Qed.

Lemma isASCII_mapLower (s : string) :
  isASCII (mapBytes toLowerByte s) = isASCII s.
Proof.
  induction s as [|c s IH]; [reflexivity|].
  unfold isASCII in *. cbn [mapBytes allBytes].
  now rewrite toLowerByte_ascii, IH.
Qed.

Lemma capital_toLower (a b : ascii) :
  isLowerByte b = true -> nat_of_ascii a + 32 = nat_of_ascii b ->
  toLowerByte a = b.
Proof.
  intros Hb Hab. unfold toLowerByte, isUpperByte, isLowerByte, between in *.
  apply andb_true_iff in Hb as [H1 H2].
  apply Nat.leb_le in H1, H2.
  replace ((65 <=? nat_of_ascii a) && (nat_of_ascii a <=? 90)) with true.
  - rewrite Hab. apply ascii_nat_embedding.
  - symmetry. apply andb_true_iff. split; apply Nat.leb_le; lia.
Qed.

(** A capitalization of a lower-case ASCII name lower-cases to that name,
    whatever the Unicode tables say. *)
Lemma ToLower_capitalization (L : Lib) (canonical name : string) :
  spec.capitalizationOf canonical name ->
  isASCII canonical = true ->
  mapBytes toLowerByte canonical = canonical ->
  strings.ToLower L name = canonical.
Proof.
  intros Hcap Hasc Hlow.
  assert (mapBytes toLowerByte name = canonical) as Hmap.
  { revert name Hcap Hasc Hlow.
    induction canonical as [|b c IH]; intros [|a n] Hcap Hasc Hlow;
      cbn in Hcap; try contradiction; [reflexivity|].
    destruct Hcap as [Hab Hrest].
    unfold isASCII in Hasc. cbn [allBytes] in Hasc.
    apply andb_true_iff in Hasc as [_ Hasc].
    cbn [mapBytes] in Hlow. injection Hlow as Hb Hc.
    cbn [mapBytes]. f_equal.
    - destruct Hab as [->|[Hlo Hnum]]; [exact Hb|].
      now apply capital_toLower.
    - now apply IH. }
  unfold strings.ToLower.
  replace (isASCII name) with true; [exact Hmap|].
  now rewrite <- isASCII_mapLower, Hmap.
Qed.

(** ** Profile resolution *)

Lemma selectClientHello_unknown (L : Lib) (name : string) :
  ~ In (strings.ToLower L name) spec.profiles ->
  selectClientHello L name = HelloChrome_108.
Proof.
  intros Hnot. unfold selectClientHello.
  repeat match goal with
  | |- context [String.eqb ?a ?b] =>
      destruct (String.eqb_spec a b) as [Heq|_];
      [exfalso; apply Hnot; rewrite Heq; cbn; tauto|]
  end.
  reflexivity.
Qed.

(** C1 (as amended).  Profile resolution is a total function of the
    lower-cased name: each of chrome, firefox, ios, safari and random, in any
    capitalization, gives its own handshake descriptor; a name that
    lower-cases to none of the five gives chrome's descriptor, the very
    value the name chrome gives, and no error; and two names that lower-case
    alike resolve alike. *)
Theorem C1_profile_resolution (L : Lib) (name : string) :
  (spec.capitalizationOf "chrome" name ->
     selectClientHello L name = HelloChrome_108) /\
  (spec.capitalizationOf "firefox" name ->
     selectClientHello L name = HelloFirefox_108) /\
  (spec.capitalizationOf "ios" name ->
     selectClientHello L name = HelloIOS_16) /\
  (spec.capitalizationOf "safari" name ->
     selectClientHello L name = HelloSafari_16_0) /\
  (spec.capitalizationOf "random" name ->
     selectClientHello L name = HelloRandomized) /\
  (~ In (strings.ToLower L name) spec.profiles ->
     selectClientHello L name = HelloChrome_108 /\
     selectClientHello L name = selectClientHello L "chrome") /\
  (forall name' : string,
     strings.ToLower L name' = strings.ToLower L name ->
     selectClientHello L name' = selectClientHello L name).
Proof.
  assert (forall canonical : string,
            spec.capitalizationOf canonical name ->
            isASCII canonical = true ->
            mapBytes toLowerByte canonical = canonical ->
            selectClientHello L name = selectClientHello L canonical) as Hcase.
  { intros canonical Hcap Hasc Hlow. unfold selectClientHello.
    rewrite (ToLower_capitalization L _ name Hcap Hasc Hlow).
    unfold strings.ToLower. now rewrite Hasc, Hlow. }
  split; [intros Hcap; exact (Hcase _ Hcap eq_refl eq_refl)|].
  split; [intros Hcap; exact (Hcase _ Hcap eq_refl eq_refl)|].
  split; [intros Hcap; exact (Hcase _ Hcap eq_refl eq_refl)|].
  split; [intros Hcap; exact (Hcase _ Hcap eq_refl eq_refl)|].
  split; [intros Hcap; exact (Hcase _ Hcap eq_refl eq_refl)|].
  split.
  - intros Hnot. now rewrite selectClientHello_unknown.
  - intros name' Heq. unfold selectClientHello. now rewrite Heq.
Qed.

(** C1, on inputs: [FireFox] is firefox's descriptor, [opera] falls back to
    chrome's. *)
Lemma C1_profile_resolution_witness :
  selectClientHello sample.lib "FireFox" = HelloFirefox_108 /\
  selectClientHello sample.lib "opera" = HelloChrome_108.
Proof.
  split.
  - destruct (C1_profile_resolution sample.lib "FireFox") as (_ & Hfirefox & _).
    apply Hfirefox. cbn. unfold isLowerByte, between. cbn. tauto.
  - destruct (C1_profile_resolution sample.lib "opera")
      as (_ & _ & _ & _ & _ & Hunknown & _).
    apply Hunknown. cbn.
    intros H. repeat destruct H as [H|H]; try discriminate H; exact H.
Defined.

(** C1 as stated fails: the claim has an unknown name signal the fallback
    (bool=false) where a known name does not.  The code computes the
    descriptor and nothing else, and [opera] gives the value [chrome] gives,
    so nothing computed from the outcome tells the two apart. *)
Lemma C1_no_fallback_signal :
  ~ (exists (L : Lib) (found : ClientHelloID -> bool),
       found (selectClientHello L "chrome") = true /\
       found (selectClientHello L "opera") = false).
Proof.
  intros (L & found & Hchrome & Hopera).
  change (selectClientHello L "opera") with HelloChrome_108 in Hopera.
  change (selectClientHello L "chrome") with HelloChrome_108 in Hchrome.
  congruence.
Qed.

(** ** The dial function *)

(** The three ways through [dialTLS]. *)
Lemma dialTLS_run (N : Network) (dialer : Dialer) (hello : ClientHelloID)
    (network addr : string) (w : World) :
  dialTLS N dialer hello network addr w =
  let dialed := trace w ++ [EvDial dialer network addr] in
  match net_Dial N (trace w) dialer network addr with
  | Err e => (Err e, {| open := open w; trace := dialed |})
  | Ok c =>
      let u := UClient c (mkConfig (sniHost addr) true) hello in
      match tls_Handshake N dialed u with
      | Some e =>
          (Err e, {| open := ({[c]} ∪ open w) ∖ {[c]};
                     trace := (dialed ++ [EvHandshake u]) ++ [EvClose c] |})
      | None =>
          (Ok u, {| open := {[c]} ∪ open w;
                    trace := dialed ++ [EvHandshake u] |})
      end
  end.
Proof.
  unfold dialTLS, bind, Dialer_Dial, UConn_Handshake, UConn_Close, ret, log,
    sniHost.
  destruct (net_Dial N (trace w) dialer network addr) as [c|e]; cbn;
    [|reflexivity].
  destruct (net.SplitHostPort addr) as [[host port]|e']; cbn;
    match goal with
    | |- context [tls_Handshake N ?t ?u] => destruct (tls_Handshake N t u)
    end; reflexivity.
Qed.

(** C2.  Whatever the network does: a failed dial is returned unchanged
    and nothing but the dial has happened; after a dial that gave
    connection [c], one handshake is attempted over [c] with the chosen
    descriptor, and if it fails its own error is returned unchanged, the
    last call made is the close of [c] and [c] is not open afterwards; a
    connection is returned only when that handshake succeeded, and it is
    then open.  On a network that answers as the Go library promises, the
    error that comes back tells the stage: it is a dial error exactly when
    the dial failed, and otherwise the error of a handshake that failed
    over the connection that was dialed. *)
Theorem C2_dial_stages (N : Network) (dialer : Dialer) (hello : ClientHelloID)
    (network addr : string) (w : World) :
  (forall e : error,
     net_Dial N (trace w) dialer network addr = Err e ->
     (dialTLS N dialer hello network addr w).1 = Err e /\
     trace (dialTLS N dialer hello network addr w).2 =
       trace w ++ [EvDial dialer network addr] /\
     open (dialTLS N dialer hello network addr w).2 = open w) /\
  (forall c : Conn,
     net_Dial N (trace w) dialer network addr = Ok c ->
     exists u : UConn,
       conn u = c /\ clientHelloID u = hello /\
       (forall e : error,
          tls_Handshake N (trace w ++ [EvDial dialer network addr]) u = Some e ->
          (dialTLS N dialer hello network addr w).1 = Err e /\
          trace (dialTLS N dialer hello network addr w).2 =
            trace w ++
              [EvDial dialer network addr; EvHandshake u; EvClose c] /\
          c ∉ open (dialTLS N dialer hello network addr w).2) /\
       (tls_Handshake N (trace w ++ [EvDial dialer network addr]) u = None ->
          (dialTLS N dialer hello network addr w).1 = Ok u /\
          trace (dialTLS N dialer hello network addr w).2 =
            trace w ++ [EvDial dialer network addr; EvHandshake u] /\
          c ∈ open (dialTLS N dialer hello network addr w).2)) /\
  (forall u : UConn,
     (dialTLS N dialer hello network addr w).1 = Ok u ->
     net_Dial N (trace w) dialer network addr = Ok (conn u) /\
     tls_Handshake N (trace w ++ [EvDial dialer network addr]) u = None) /\
  (goNetwork N ->
   forall e : error,
     (dialTLS N dialer hello network addr w).1 = Err e ->
     (isDialError e = true /\
      net_Dial N (trace w) dialer network addr = Err e /\
      trace (dialTLS N dialer hello network addr w).2 =
        trace w ++ [EvDial dialer network addr]) \/
     (isDialError e = false /\
      exists u : UConn,
        net_Dial N (trace w) dialer network addr = Ok (conn u) /\
        tls_Handshake N (trace w ++ [EvDial dialer network addr]) u = Some e /\
        trace (dialTLS N dialer hello network addr w).2 =
          trace w ++
            [EvDial dialer network addr; EvHandshake u; EvClose (conn u)] /\
        conn u ∉ open (dialTLS N dialer hello network addr w).2)).
Proof.
  rewrite dialTLS_run. cbv zeta.
  destruct (net_Dial N (trace w) dialer network addr) as [c|e0] eqn:Hdial.
  - split; [intros e He; discriminate He|]. split; [|split].
    + intros c' Hc'. injection Hc' as <-.
      exists (UClient c (mkConfig (sniHost addr) true) hello).
      split; [reflexivity|]. split; [reflexivity|]. split.
      * intros e He. rewrite He. cbn.
        split; [reflexivity|]. split; [now rewrite <- !app_assoc|].
        intros [_ Hout]%elem_of_difference.
        apply Hout. now apply elem_of_singleton.
      * intros He. rewrite He. cbn.
        split; [reflexivity|]. split; [now rewrite <- !app_assoc|].
        apply elem_of_union_l. now apply elem_of_singleton.
    + intros u.
      destruct (tls_Handshake N _ (UClient c _ hello)) as [e|] eqn:Hhs; cbn;
        [intros Hu; discriminate Hu|].
      intros Hu. injection Hu as <-. now split.
    + intros [_ Hhandshake] e.
      destruct (tls_Handshake N _ (UClient c _ hello)) as [e'|] eqn:Hhs; cbn;
        [|intros He; discriminate He].
      intros He. injection He as <-. right.
      split; [exact (Hhandshake _ _ _ Hhs)|].
      exists (UClient c (mkConfig (sniHost addr) true) hello). cbn [conn].
      split; [reflexivity|]. split; [exact Hhs|].
      split; [now rewrite <- !app_assoc|].
      intros [_ Hout]%elem_of_difference.
      apply Hout. now apply elem_of_singleton.
  - split; [intros e He; injection He as <-; now cbn|].
    split; [intros c Hc; discriminate Hc|].
    cbn. split; [intros u Hu; discriminate Hu|].
    intros [Hdialerr _] e He. injection He as <-. left.
    split; [exact (Hdialerr _ _ _ _ _ Hdial)|]. now split.
Qed.

Lemma sample_refusing_goNetwork : goNetwork sample.refusing.
Proof.
  split.
  - intros tr d network addr e He. cbn in He. injection He as <-. reflexivity.
  - intros tr u e He. discriminate He.
Qed.

Lemma sample_rejecting_goNetwork : goNetwork sample.rejecting.
Proof.
  split.
  - intros tr d network addr e He. discriminate He.
  - intros tr u e He. cbn in He. injection He as <-. reflexivity.
Qed.

(** C2, on inputs: a refused connection comes back as the dial error it
    is, with no handshake; a rejected handshake comes back as an error that
    is no dial error, after the close of connection 7; and a connection
    comes back from the friendly network. *)
Lemma C2_dial_stages_witness :
  (isDialError "dial tcp 93.184.216.34:443: connect: connection refused"
   = true /\
   trace (dialTLS sample.refusing (mkDialer 30 30) HelloChrome_108
            "tcp" "example.com:443" sample.w0).2 =
     [EvDial (mkDialer 30 30) "tcp" "example.com:443"]) /\
  (isDialError "remote error: tls: handshake failure" = false /\
   exists u : UConn,
     trace (dialTLS sample.rejecting (mkDialer 30 30) HelloChrome_108
              "tcp" "example.com:443" sample.w0).2 =
       [EvDial (mkDialer 30 30) "tcp" "example.com:443";
        EvHandshake u; EvClose (conn u)]) /\
  (exists u : UConn,
     (dialTLS sample.friendly (mkDialer 30 30) HelloChrome_108
        "tcp" "example.com:443" sample.w0).1 = Ok u).
Proof.
  split; [|split].
  - destruct (C2_dial_stages sample.refusing (mkDialer 30 30)
                HelloChrome_108 "tcp" "example.com:443" sample.w0)
      as (_ & _ & _ & Hstage).
    destruct (Hstage sample_refusing_goNetwork
                "dial tcp 93.184.216.34:443: connect: connection refused"
                eq_refl)
      as [(Hkind & _ & Htrace)|(Hkind & _)].
    + split; [exact Hkind|exact Htrace].
    + discriminate Hkind.
  - destruct (C2_dial_stages sample.rejecting (mkDialer 30 30)
                HelloChrome_108 "tcp" "example.com:443" sample.w0)
      as (_ & _ & _ & Hstage).
    destruct (Hstage sample_rejecting_goNetwork
                "remote error: tls: handshake failure" eq_refl)
      as [(Hkind & _)|(Hkind & u & _ & _ & Htrace & _)].
    + discriminate Hkind.
    + split; [exact Hkind|]. exists u. exact Htrace.
  - destruct (C2_dial_stages sample.friendly (mkDialer 30 30)
                HelloChrome_108 "tcp" "example.com:443" sample.w0)
      as (_ & Hhs & _).
    destruct (Hhs 7 eq_refl) as (u & _ & _ & _ & Hok).
    exists u. apply Hok. reflexivity.
Defined.

(** ** Cutting strings at a byte *)

Section Cut.
Implicit Types (s r : string) (c a : ascii).

Lemma append_cons a s r : String a s +:+ r = String a (s +:+ r).
Proof. reflexivity. Qed.

Lemma append_nil s : "" +:+ s = s.
Proof. reflexivity. Qed.

Lemma length_append s r :
  String.length (s +:+ r) = String.length s + String.length r.
Proof.
  induction s as [|a s IH]; [reflexivity|].
  rewrite append_cons. cbn [String.length]. now rewrite IH.
Qed.

Lemma hasByte_nil c : ~ spec.hasByte c "".
Proof. intros []. Qed.

Lemma hasByte_cons c a s :
  spec.hasByte c (String a s) <-> a = c \/ spec.hasByte c s.
Proof. reflexivity. Qed.

Lemma hasByte_append c s r :
  spec.hasByte c (s +:+ r) <-> spec.hasByte c s \/ spec.hasByte c r.
Proof.
  induction s as [|a s IH].
  - rewrite append_nil. pose proof (hasByte_nil c). tauto.
  - rewrite append_cons, !hasByte_cons, IH. tauto.
Qed.

Lemma IndexByte_None s c :
  ~ spec.hasByte c s -> strings.IndexByte s c = None.
Proof.
  induction s as [|a s IH]; [reflexivity|].
  rewrite hasByte_cons. intros Hno. cbn [strings.IndexByte].
  destruct (Ascii.eqb_spec a c) as [->|Hne]; [tauto|].
  rewrite IH; [reflexivity|tauto].
Qed.

Lemma IndexByte_Some s c i :
  strings.IndexByte s c = Some i -> spec.hasByte c s.
Proof.
  revert i. induction s as [|a s IH]; intros i; [discriminate|].
  cbn [strings.IndexByte]. rewrite hasByte_cons.
  destruct (Ascii.eqb_spec a c) as [->|Hne]; [tauto|].
  destruct (strings.IndexByte s c) as [j|]; [|discriminate].
  intros _. right. now apply (IH j).
Qed.

Lemma IndexByte_append s c r :
  ~ spec.hasByte c s ->
  strings.IndexByte (s +:+ String c r) c = Some (String.length s).
Proof.
  induction s as [|a s IH]; intros Hno.
  - rewrite append_nil. cbn [strings.IndexByte].
    now rewrite Ascii.eqb_refl.
  - rewrite hasByte_cons in Hno. rewrite append_cons.
    cbn [strings.IndexByte String.length].
    destruct (Ascii.eqb_spec a c) as [->|Hne]; [tauto|].
    rewrite IH; [reflexivity|tauto].
Qed.

Lemma LastIndexByte_None s c :
  ~ spec.hasByte c s -> strings.LastIndexByte s c = None.
Proof.
  induction s as [|a s IH]; [reflexivity|].
  rewrite hasByte_cons. intros Hno. cbn [strings.LastIndexByte].
  rewrite IH by tauto.
  destruct (Ascii.eqb_spec a c) as [->|Hne]; [tauto|reflexivity].
Qed.

Lemma LastIndexByte_append s c r :
  ~ spec.hasByte c r ->
  strings.LastIndexByte (s +:+ String c r) c = Some (String.length s).
Proof.
  intros Hno. induction s as [|a s IH].
  - rewrite append_nil. cbn [strings.LastIndexByte].
    rewrite LastIndexByte_None by exact Hno.
    now rewrite Ascii.eqb_refl.
  - rewrite append_cons. cbn [strings.LastIndexByte String.length].
    now rewrite IH.
Qed.

Lemma substring_all s : substring 0 (String.length s) s = s.
Proof. induction s as [|a s IH]; cbn; [reflexivity|now rewrite IH]. Qed.

Lemma substring_prefix s r :
  substring 0 (String.length s) (s +:+ r) = s.
Proof.
  induction s as [|a s IH].
  - rewrite append_nil. now destruct r.
  - rewrite append_cons. cbn. now rewrite IH.
Qed.

Lemma substring_suffix s r :
  substring (String.length s) (String.length r) (s +:+ r) = r.
Proof.
  induction s as [|a s IH].
  - rewrite append_nil. apply substring_all.
  - rewrite append_cons. cbn. exact IH.
Qed.

Lemma slice_before s c r :
  slice (s +:+ String c r) 0 (String.length s) = s.
Proof. unfold slice. rewrite Nat.sub_0_r. apply substring_prefix. Qed.

Lemma sliceFrom_after s c r :
  sliceFrom (s +:+ String c r) (String.length s + 1) = r.
Proof.
  unfold sliceFrom. rewrite length_append. cbn [String.length].
  replace (String.length s + S (String.length r) - (String.length s + 1))
    with (String.length r) by lia.
  replace (s +:+ String c r) with ((s +:+ String c "") +:+ r).
  - replace (String.length s + 1) with (String.length (s +:+ String c "")).
    + apply substring_suffix.
    + now rewrite length_append.
  - induction s as [|a s IH]; [reflexivity|].
    rewrite !append_cons. now rewrite IH.
Qed.

Lemma sliceFrom_0 s : sliceFrom s 0 = s.
Proof. unfold sliceFrom. rewrite Nat.sub_0_r. apply substring_all. Qed.

(** [strings.SplitN(s, ":", 2)] cuts at the first separator. *)
Lemma SplitN2_cut s c r :
  ~ spec.hasByte c s ->
  strings.SplitN2 (s +:+ String c r) c = [s; r].
Proof.
  intros Hno. unfold strings.SplitN2.
  now rewrite IndexByte_append, slice_before, sliceFrom_after.
Qed.

Lemma SplitN2_whole s c :
  ~ spec.hasByte c s -> strings.SplitN2 s c = [s].
Proof. intros Hno. unfold strings.SplitN2. now rewrite IndexByte_None. Qed.

(** A string with the byte [c] is cut by its first [c]. *)
Lemma hasByte_cut s c :
  spec.hasByte c s ->
  exists before after : string,
    s = before +:+ String c after /\ ~ spec.hasByte c before.
Proof.
  induction s as [|a s IH]; [intros []|].
  rewrite hasByte_cons.
  destruct (Ascii.eqb_spec a c) as [->|Hne].
  - intros _. exists "", s. split; [reflexivity|apply hasByte_nil].
  - intros [Heq|Hin]; [tauto|].
    destruct (IH Hin) as (before & after & -> & Hno).
    exists (String a before), after. split; [reflexivity|].
    rewrite hasByte_cons. tauto.
Qed.
End Cut.

(** ** Host and port *)

Lemma net_hasByte_false (s : string) (c : ascii) :
  ~ spec.hasByte c s -> net.hasByte s c = false.
Proof.
  intros Hno. unfold net.hasByte. rewrite IndexByte_None by exact Hno.
  apply bool_decide_eq_false. intros [x Hx]. discriminate Hx.
Qed.

(** [host:port] splits into its host and its port. *)
Lemma SplitHostPort_plain (host port : string) :
  spec.plain host -> spec.plain port ->
  net.SplitHostPort (host +:+ String ":" port) = Ok (host, port).
Proof.
  intros (Hc & Hl & Hr) (Hc' & Hl' & Hr'). unfold net.SplitHostPort.
  rewrite LastIndexByte_append by exact Hc'.
  replace (bool_decide (String.get 0 (host +:+ String ":" port) = Some "["%char))
    with false.
  2:{ symmetry. apply bool_decide_eq_false.
      destruct host as [|a host]; [discriminate|].
      rewrite append_cons. cbn. intros [= ->].
      apply Hl. rewrite hasByte_cons. now left. }
  rewrite slice_before, (net_hasByte_false host) by exact Hc.
  rewrite sliceFrom_0, sliceFrom_after.
  rewrite !net_hasByte_false; [reflexivity| |].
  - rewrite hasByte_append, hasByte_cons. intros [?|[[=]|?]]; tauto.
  - rewrite hasByte_append, hasByte_cons. intros [?|[[=]|?]]; tauto.
Qed.

(** An address without a colon does not split. *)
Lemma SplitHostPort_no_colon (addr : string) :
  ~ spec.hasByte ":" addr ->
  exists e : error, net.SplitHostPort addr = Err e.
Proof.
  intros Hno. unfold net.SplitHostPort, net.addrErr.
  rewrite LastIndexByte_None by exact Hno.
  destruct (String.eqb addr ""); eexists; reflexivity.
Qed.

(** C7.  After a successful dial exactly one handshake is attempted, and the
    server name of its configuration is the host [net.SplitHostPort] finds in
    the address, or the whole address when the split fails; so for an
    address [host:port] it is [host], and for an address without a colon it
    is the address. *)
Theorem C7_server_name (N : Network) (dialer : Dialer) (hello : ClientHelloID)
    (network addr : string) (w : World) (c : Conn) :
  net_Dial N (trace w) dialer network addr = Ok c ->
  exists (u : UConn) (rest : list event),
    trace (dialTLS N dialer hello network addr w).2 =
      trace w ++ EvDial dialer network addr :: EvHandshake u :: rest /\
    (forall u' : UConn, ~ In (EvHandshake u') rest) /\
    conn u = c /\
    (forall host port : string,
       net.SplitHostPort addr = Ok (host, port) ->
       ServerName (config u) = host) /\
    (forall e : error,
       net.SplitHostPort addr = Err e -> ServerName (config u) = addr) /\
    (forall host port : string,
       spec.plain host -> spec.plain port -> addr = host +:+ String ":" port ->
       ServerName (config u) = host) /\
    (~ spec.hasByte ":" addr -> ServerName (config u) = addr).
Proof.
  intros Hdial. rewrite dialTLS_run. cbv zeta. rewrite Hdial.
  set (u := UClient c (mkConfig (sniHost addr) true) hello).
  assert ((forall host port : string,
             net.SplitHostPort addr = Ok (host, port) ->
             ServerName (config u) = host) /\
          (forall e : error,
             net.SplitHostPort addr = Err e -> ServerName (config u) = addr))
    as [Hok Herr].
  { cbn. unfold sniHost. split.
    - intros host port ->. reflexivity.
    - intros e ->. reflexivity. }
  assert (exists rest : list event,
            trace (match tls_Handshake N (trace w ++ [EvDial dialer network addr]) u with
                   | Some e =>
                       (Err e,
                        {| open := ({[c]} ∪ open w) ∖ {[c]};
                           trace := ((trace w ++ [EvDial dialer network addr])
                                       ++ [EvHandshake u]) ++ [EvClose c] |})
                   | None =>
                       (Ok u,
                        {| open := {[c]} ∪ open w;
                           trace := (trace w ++ [EvDial dialer network addr])
                                      ++ [EvHandshake u] |})
                   end).2 =
              trace w ++ EvDial dialer network addr :: EvHandshake u :: rest /\
            (forall u' : UConn, ~ In (EvHandshake u') rest))
    as (rest & Htrace & Hrest).
  { destruct (tls_Handshake N _ u); cbn.
    - exists [EvClose c]. split; [now rewrite <- !app_assoc|].
      intros u' [Hin|[]]. discriminate Hin.
    - exists []. split; [now rewrite <- !app_assoc|]. intros u' []. }
  exists u, rest. repeat (split; [assumption|]).
  split; [reflexivity|]. split; [exact Hok|]. split; [exact Herr|]. split.
  - intros host port Hh Hp ->. apply (Hok host port).
    now apply SplitHostPort_plain.
  - intros Hno. destruct (SplitHostPort_no_colon addr Hno) as [e He].
    now apply (Herr e).
Qed.

(** C7, on inputs: for [example.com:443] the server name is [example.com];
    for [example.com] it is [example.com]. *)
Lemma C7_server_name_witness :
  (exists (u : UConn) (rest : list event),
     trace (dialTLS sample.friendly (mkDialer 30 30) HelloChrome_108
              "tcp" "example.com:443" sample.w0).2 =
       EvDial (mkDialer 30 30) "tcp" "example.com:443"
         :: EvHandshake u :: rest /\
     ServerName (config u) = "example.com") /\
  (exists (u : UConn) (rest : list event),
     trace (dialTLS sample.friendly (mkDialer 30 30) HelloChrome_108
              "tcp" "example.com" sample.w0).2 =
       EvDial (mkDialer 30 30) "tcp" "example.com"
         :: EvHandshake u :: rest /\
     ServerName (config u) = "example.com").
Proof.
  split.
  - destruct (C7_server_name sample.friendly (mkDialer 30 30) HelloChrome_108
                "tcp" "example.com:443" sample.w0 7 eq_refl)
      as (u & rest & Htrace & _ & _ & Hhost & _).
    exists u, rest. split; [exact Htrace|].
    apply (Hhost "example.com" "443"). reflexivity.
  - destruct (C7_server_name sample.friendly (mkDialer 30 30) HelloChrome_108
                "tcp" "example.com" sample.w0 7 eq_refl)
      as (u & rest & Htrace & _ & _ & _ & Hwhole & _).
    exists u, rest. split; [exact Htrace|].
    apply (Hwhole "address example.com: missing port in address").
    reflexivity.
Defined.

(** ** Certificate verification *)

(** C8.  [SendRequest] hands the request to [client.Do] with the client of
    step 3, whatever [client.Do] is.  That client's TLS configuration skips
    verification; every handshake its dial function attempts, for any
    address and in any world, is over a configuration that skips
    verification; and so is the configuration of every connection it
    returns. *)
Theorem C8_verification_disabled (L : Lib) (N : Network)
    (params : RequestParams) (visit : list (string * string)) :
  (forall (client_Do : Do) (req : http.Request),
     buildRequest L params visit = Ok req ->
     SendRequest L N client_Do params visit =
       client_Do
         (newClient N (mkDialer 30 30) (selectClientHello L (JA3Profile params)))
         req) /\
  tls_InsecureSkipVerify
    (TLSClientConfig
       (Transport_
          (newClient N (mkDialer 30 30)
             (selectClientHello L (JA3Profile params))))) = true /\
  (forall (network addr : string) (w : World) (u : UConn),
     In (EvHandshake u)
       (trace (DialTLS
                 (Transport_
                    (newClient N (mkDialer 30 30)
                       (selectClientHello L (JA3Profile params))))
                 network addr w).2) ->
     In (EvHandshake u) (trace w) \/ InsecureSkipVerify (config u) = true) /\
  (forall (network addr : string) (w : World) (u : UConn),
     (DialTLS
        (Transport_
           (newClient N (mkDialer 30 30)
              (selectClientHello L (JA3Profile params))))
        network addr w).1 = Ok u ->
     InsecureSkipVerify (config u) = true).
Proof.
  split; [|split; [reflexivity|split]].
  - intros client_Do req Hreq. unfold SendRequest. now rewrite Hreq.
  - intros network addr w u. cbn [newClient Transport_ DialTLS].
    rewrite dialTLS_run. cbv zeta.
    destruct (net_Dial N (trace w) _ network addr) as [c|e]; cbn.
    + destruct (tls_Handshake N _ _); cbn;
        rewrite !in_app_iff; cbn;
        intros H; decompose [or] H; try tauto;
        match goal with
        | Heq : EvHandshake _ = EvHandshake u |- _ =>
            injection Heq as <-; now right
        | Heq : _ = EvHandshake u |- _ => discriminate Heq
        end.
    + rewrite in_app_iff. cbn. intros [H|[H|[]]]; [now left|discriminate H].
  - intros network addr w u. cbn [newClient Transport_ DialTLS].
    rewrite dialTLS_run. cbv zeta.
    destruct (net_Dial N (trace w) _ network addr) as [c|e]; cbn;
      [|intros H; discriminate H].
    destruct (tls_Handshake N _ _); cbn; [intros H; discriminate H|].
    now intros [= <-].
Qed.

(** ** Building the request *)

Lemma Header_Set_lookup (h : http.Header) (key value : string) :
  http.Header_Set h key value !! textproto.CanonicalMIMEHeaderKey key
  = Some [value].
Proof. unfold http.Header_Set. apply lookup_insert_eq. Qed.

Lemma Header_Set_lookup_ne (h : http.Header) (key value K : string) :
  textproto.CanonicalMIMEHeaderKey key <> K ->
  http.Header_Set h key value !! K = h !! K.
Proof. intros Hne. unfold http.Header_Set. now apply lookup_insert_ne. Qed.

(** After the loop over the caller's headers, a canonical key holds what it
    held before when no visited key names it, and otherwise the one value
    of a visited key that names it. *)
Lemma addCustomHeaders_lookup (visit : list (string * string))
    (h : http.Header) (K : string) :
  (addCustomHeaders visit h !! K = h !! K /\
   forall k v, In (k, v) visit -> textproto.CanonicalMIMEHeaderKey k <> K) \/
  (exists k v, In (k, v) visit /\ textproto.CanonicalMIMEHeaderKey k = K /\
               addCustomHeaders visit h !! K = Some [v]).
Proof.
  revert h. induction visit as [|[k v] visit IH]; intros h.
  - left. split; [reflexivity|]. intros k v [].
  - cbn [addCustomHeaders fold_left fst snd].
    change (fold_left _ visit ?x) with (addCustomHeaders visit x).
    destruct (IH (http.Header_Set h k v)) as [[Hsame Hnone]|(k' & v' & Hin & Hk & Hv)].
    + destruct (decide (textproto.CanonicalMIMEHeaderKey k = K)) as [Hk|Hk].
      * right. exists k, v. split; [now left|]. split; [exact Hk|].
        rewrite Hsame, <- Hk. apply Header_Set_lookup.
      * left. split.
        -- rewrite Hsame. now apply Header_Set_lookup_ne.
        -- intros k' v' [[= <- <-]|Hin]; [exact Hk|]. now apply (Hnone k' v').
    + right. exists k', v'. split; [now right|]. now split.
Qed.

Lemma rangeOrder_In (m : gmap string string) (visit : list (string * string))
    (k v : string) :
  rangeOrder m visit -> (In (k, v) visit <-> m !! k = Some v).
Proof.
  intros Hperm. rewrite <- list_elem_of_In.
  unfold rangeOrder in Hperm. rewrite Hperm.
  apply elem_of_map_to_list.
Qed.

(** [buildRequest] succeeds exactly when the method is a token (or empty)
    and the URL parses, and then with the request [assembled]. *)
Lemma buildRequest_Ok (L : Lib) (params : RequestParams)
    (visit : list (string * string)) (req : http.Request) :
  buildRequest L params visit = Ok req <->
  http.validMethod (methodOrGET (Method params)) = true /\
  exists u : url.URL,
    url_Parse L (URL params) = Ok u /\ req = assembled L params visit u.
Proof.
  unfold buildRequest, http.NewRequest, http.NewReader.
  fold (methodOrGET (Method params)).
  assert ((if negb (String.eqb (RequestBody params) "")
           then RequestBody params else "") = RequestBody params) as ->.
  { destruct (String.eqb_spec (RequestBody params) "") as [->|]; reflexivity. }
  destruct (http.validMethod (methodOrGET (Method params))); cbn [negb].
  - destruct (url_Parse L (URL params)) as [u|e].
    + split.
      * intros [= <-]. split; [reflexivity|]. now exists u.
      * intros (_ & u' & [= <-] & ->). reflexivity.
    + split; [intros H; discriminate H|].
      intros (_ & u' & H & _). discriminate H.
  - split; [intros H; discriminate H|]. intros (H & _). discriminate H.
Qed.

(** ** The identification header *)

Lemma canonical_User_Agent : spec.isUserAgent "User-Agent".
Proof. reflexivity. Qed.

Lemma setDefaultUserAgent_absent (L : Lib) (params : RequestParams)
    (h : http.Header) :
  Headers params !! "User-Agent" = None ->
  setDefaultUserAgent L params h =
    http.Header_Set h "User-Agent" (defaultUserAgent L (JA3Profile params)).
Proof.
  intros Hnone. unfold setDefaultUserAgent, defaultUserAgent. rewrite Hnone.
  cbv zeta.
  repeat match goal with
  | |- context [String.eqb ?a ?b] => destruct (String.eqb a b)
  end; reflexivity.
Qed.

Lemma Header_Values_lookup (h : http.Header) (key : string) (vs : list string) :
  h !! textproto.CanonicalMIMEHeaderKey key = Some vs ->
  http.Header_Values h key = vs.
Proof. intros Hl. unfold http.Header_Values. now rewrite Hl. Qed.

(** The value of a header in the assembled request: the one value of a
    caller's key that names the header, or, when no caller's key names it,
    what the default User-Agent step left there. *)
Lemma assembled_header (L : Lib) (params : RequestParams)
    (visit : list (string * string)) (u : url.URL) (key : string) :
  rangeOrder (Headers params) visit ->
  (http.Header_ (assembled L params visit u)
     !! textproto.CanonicalMIMEHeaderKey key
   = setDefaultUserAgent L params ∅ !! textproto.CanonicalMIMEHeaderKey key /\
   forall k v, Headers params !! k = Some v -> ~ spec.sameHeader k key) \/
  (exists k v, Headers params !! k = Some v /\ spec.sameHeader k key /\
               http.Header_Values (http.Header_ (assembled L params visit u)) key
               = [v]).
Proof.
  intros Hrange. cbn [assembled http.Header_].
  destruct (addCustomHeaders_lookup visit (setDefaultUserAgent L params ∅)
              (textproto.CanonicalMIMEHeaderKey key))
    as [[Hsame Hnone]|(k & v & Hin & Hk & Hv)].
  - left. split; [exact Hsame|]. intros k v Hkv.
    apply (Hnone k v). now apply (rangeOrder_In _ _ k v Hrange).
  - right. exists k, v. split; [now apply (rangeOrder_In _ _ k v Hrange)|].
    split; [exact Hk|]. now apply Header_Values_lookup.
Qed.

(** Without a caller's key that names the User-Agent header, the request
    carries the default of the profile. *)
Lemma assembled_default_user_agent (L : Lib) (params : RequestParams)
    (visit : list (string * string)) (u : url.URL) :
  rangeOrder (Headers params) visit ->
  (forall k, is_Some (Headers params !! k) -> ~ spec.isUserAgent k) ->
  http.Header_Values (http.Header_ (assembled L params visit u)) "User-Agent"
  = [defaultUserAgent L (JA3Profile params)].
Proof.
  intros Hrange Hnone.
  destruct (assembled_header L params visit u "User-Agent" Hrange)
    as [[Hsame _]|(k' & v' & Hkv' & Hk' & _)].
  - apply Header_Values_lookup. rewrite Hsame.
    rewrite setDefaultUserAgent_absent.
    + apply Header_Set_lookup.
    + destruct (Headers params !! "User-Agent") as [v|] eqn:Hua;
        [|reflexivity].
      exfalso. apply (Hnone "User-Agent"); [now exists v|].
      apply canonical_User_Agent.
  - exfalso. apply (Hnone k'); [now exists v'|exact Hk'].
Qed.

(** C3 (as amended).  In the assembled request, whatever the order in which the loop
    visits the caller's headers: if the caller's map has an entry that names
    the User-Agent header, the request has exactly one User-Agent value and
    it is the value of such an entry of the caller, so the caller's value
    [v] when the caller gave no other; if the map has no such entry, the one
    User-Agent value is the default of the profile. *)
Theorem C3_user_agent_precedence (L : Lib) (params : RequestParams)
    (visit : list (string * string)) (req : http.Request) :
  rangeOrder (Headers params) visit ->
  buildRequest L params visit = Ok req ->
  ((exists k v, Headers params !! k = Some v /\ spec.isUserAgent k) ->
   exists k v, Headers params !! k = Some v /\ spec.isUserAgent k /\
     http.Header_Values (http.Header_ req) "User-Agent" = [v]) /\
  (forall v : string,
     (exists k, Headers params !! k = Some v /\ spec.isUserAgent k) ->
     (forall k v', Headers params !! k = Some v' -> spec.isUserAgent k ->
                   v' = v) ->
     http.Header_Values (http.Header_ req) "User-Agent" = [v] /\
     http.Header_Get (http.Header_ req) "User-Agent" = v) /\
  ((forall k, is_Some (Headers params !! k) -> ~ spec.isUserAgent k) ->
   http.Header_Values (http.Header_ req) "User-Agent"
     = [defaultUserAgent L (JA3Profile params)] /\
   http.Header_Get (http.Header_ req) "User-Agent"
     = defaultUserAgent L (JA3Profile params)).
Proof.
  intros Hrange Hbuild.
  apply buildRequest_Ok in Hbuild as (_ & u & _ & ->).
  assert ((exists k v, Headers params !! k = Some v /\ spec.isUserAgent k) ->
          exists k v, Headers params !! k = Some v /\ spec.isUserAgent k /\
            http.Header_Values (http.Header_ (assembled L params visit u))
              "User-Agent" = [v]) as Hsome.
  { intros (k & v & Hkv & Hk).
    destruct (assembled_header L params visit u "User-Agent" Hrange)
      as [[_ Hnone]|(k' & v' & Hkv' & Hk' & Hv')].
    - exfalso. now apply (Hnone k v Hkv).
    - exists k', v'. now repeat split. }
  split; [exact Hsome|]. split.
  - intros v (k & Hkv & Hk) Honly.
    destruct Hsome as (k' & v' & Hkv' & Hk' & Hv').
    { now exists k, v. }
    rewrite (Honly k' v' Hkv' Hk') in Hv'.
    split; [exact Hv'|]. unfold http.Header_Get. now rewrite Hv'.
  - intros Hnone.
    pose proof (assembled_default_user_agent L params visit u Hrange Hnone)
      as Hv.
    split; [exact Hv|]. unfold http.Header_Get. now rewrite Hv.
Qed.

Lemma sample_buildRequest (method profile : string)
    (headers : gmap string string) (body : string)
    (visit : list (string * string)) :
  http.validMethod (methodOrGET method) = true ->
  buildRequest sample.lib (sample.params method profile headers body) visit
  = Ok (assembled sample.lib (sample.params method profile headers body)
          visit sample.example_com).
Proof.
  intros Hvalid. apply buildRequest_Ok. split; [exact Hvalid|].
  exists sample.example_com. split; reflexivity.
Qed.

(** C3, on inputs: with the header [User-Agent: curl/8.0] the request says
    [curl/8.0]; without headers and with profile [Firefox] it carries the
    Firefox default. *)
Lemma C3_user_agent_precedence_witness :
  http.Header_Get
    (http.Header_
       (assembled sample.lib
          (sample.params "GET" "Firefox" {["User-Agent" := "curl/8.0"]} "")
          [("User-Agent", "curl/8.0")] sample.example_com))
    "User-Agent" = "curl/8.0" /\
  http.Header_Get
    (http.Header_
       (assembled sample.lib (sample.params "GET" "Firefox" ∅ "") []
          sample.example_com))
    "User-Agent" = UA_Firefox.
Proof.
  split.
  - assert (rangeOrder {["User-Agent" := "curl/8.0"]}
              [("User-Agent", "curl/8.0")]) as Hrange.
    { unfold rangeOrder. now rewrite map_to_list_singleton. }
    destruct (C3_user_agent_precedence sample.lib
                (sample.params "GET" "Firefox" {["User-Agent" := "curl/8.0"]} "")
                [("User-Agent", "curl/8.0")] _ Hrange
                (sample_buildRequest "GET" _ _ _ _ eq_refl))
      as (_ & Hexact & _).
    apply (Hexact "curl/8.0").
    + exists "User-Agent". split; [apply lookup_singleton_eq|reflexivity].
    + intros k v Hk _. cbn in Hk.
      now apply lookup_singleton_Some in Hk as [_ <-].
  - assert (rangeOrder ∅ []) as Hrange.
    { unfold rangeOrder. now rewrite map_to_list_empty. }
    destruct (C3_user_agent_precedence sample.lib
                (sample.params "GET" "Firefox" ∅ "") [] _ Hrange
                (sample_buildRequest "GET" _ _ _ _ eq_refl))
      as (_ & _ & Hdefault).
    apply Hdefault. intros k [v Hk]. cbn in Hk.
    rewrite lookup_empty in Hk. discriminate Hk.
Defined.

(** C3 as stated fails: the claim has the request carry the caller's
    value whenever the caller's map has a User-Agent entry.  With the two
    entries [User-Agent: curl/8.0] and [user-agent: evil], visited in this
    order, the request carries [evil], not the value the caller gave under
    [User-Agent].  This is so for any library in which the URL parses. *)
Lemma C3_colliding_user_agent :
  ~ (exists L : Lib,
       (exists u : url.URL, url_Parse L "https://example.com/" = Ok u) /\
       forall (params : RequestParams) (visit : list (string * string))
              (req : http.Request),
         rangeOrder (Headers params) visit ->
         buildRequest L params visit = Ok req ->
         forall v : string,
           Headers params !! "User-Agent" = Some v ->
           http.Header_Get (http.Header_ req) "User-Agent" = v).
Proof.
  intros (L & (u & Hparse) & Hclaim).
  pose (headers :=
          <["User-Agent" := "curl/8.0"]> {["user-agent" := "evil"]}
          : gmap string string).
  pose (visit := [("User-Agent", "curl/8.0"); ("user-agent", "evil")]).
  pose (p := sample.params "GET" "chrome" headers "").
  assert (rangeOrder (Headers p) visit) as Hrange.
  { change (visit ≡ₚ map_to_list headers). unfold visit, headers.
    rewrite map_to_list_insert by (now apply lookup_singleton_ne).
    now rewrite map_to_list_singleton. }
  assert (buildRequest L p visit = Ok (assembled L p visit u)) as Hbuild.
  { apply buildRequest_Ok. split; [reflexivity|].
    exists u. split; [exact Hparse|reflexivity]. }
  assert (http.Header_Get (http.Header_ (assembled L p visit u)) "User-Agent"
          = "curl/8.0") as Hsaid.
  { apply (Hclaim p visit (assembled L p visit u) Hrange Hbuild "curl/8.0").
    change (headers !! "User-Agent" = Some "curl/8.0").
    unfold headers. apply lookup_insert_eq. }
  assert (http.Header_Get (http.Header_ (assembled L p visit u)) "User-Agent"
          = "evil") as Hreal.
  { unfold http.Header_Get.
    rewrite (Header_Values_lookup _ "User-Agent" ["evil"]); [reflexivity|].
    cbn [assembled http.Header_ visit addCustomHeaders fold_left fst snd].
    exact (Header_Set_lookup _ "user-agent" "evil"). }
  rewrite Hreal in Hsaid. discriminate Hsaid.
Qed.

(** ** The caller's headers *)

(** C5 (as amended).  In the assembled request, whatever the order in which
    the loop visits the caller's headers, every key of the caller is read
    back with exactly one value, and that value is the caller's value for a
    key that names the same header; it is the caller's value for that very
    key when no other key of the caller names the same header.  Nothing set
    before the loop survives under a name the caller gave: not the default
    User-Agent either. *)
Theorem C5_caller_headers (L : Lib) (params : RequestParams)
    (visit : list (string * string)) (req : http.Request) :
  rangeOrder (Headers params) visit ->
  buildRequest L params visit = Ok req ->
  forall k v : string,
    Headers params !! k = Some v ->
    (exists k' v' : string,
       Headers params !! k' = Some v' /\ spec.sameHeader k' k /\
       http.Header_Values (http.Header_ req) k = [v']) /\
    ((forall k' : string,
        is_Some (Headers params !! k') -> spec.sameHeader k' k -> k' = k) ->
     http.Header_Values (http.Header_ req) k = [v]).
Proof.
  intros Hrange Hbuild k v Hkv.
  apply buildRequest_Ok in Hbuild as (_ & u & _ & ->).
  assert (exists k' v' : string,
            Headers params !! k' = Some v' /\ spec.sameHeader k' k /\
            http.Header_Values (http.Header_ (assembled L params visit u)) k
            = [v']) as (k' & v' & Hkv' & Hk' & Hv').
  { destruct (assembled_header L params visit u k Hrange)
      as [[_ Hnone]|Hsome]; [|exact Hsome].
    exfalso. now apply (Hnone k v Hkv). }
  split; [now exists k', v'|].
  intros Honly. rewrite (Honly k') in Hkv' by (try exact Hk'; now exists v').
  congruence.
Qed.

(** C5, on inputs: the header [Content-Type: application/json] of a POST
    with profile chrome is read back with that one value. *)
Lemma C5_caller_headers_witness :
  http.Header_Values
    (http.Header_
       (assembled sample.lib
          (sample.params "POST" "chrome"
             {["Content-Type" := "application/json"]} "{}")
          [("Content-Type", "application/json")] sample.example_com))
    "Content-Type" = ["application/json"].
Proof.
  assert (rangeOrder {["Content-Type" := "application/json"]}
            [("Content-Type", "application/json")]) as Hrange.
  { unfold rangeOrder. now rewrite map_to_list_singleton. }
  apply (C5_caller_headers sample.lib
           (sample.params "POST" "chrome"
              {["Content-Type" := "application/json"]} "{}")
           [("Content-Type", "application/json")] _ Hrange
           (sample_buildRequest "POST" _ _ _ _ eq_refl)
           "Content-Type" "application/json").
  - apply lookup_singleton_eq.
  - intros k [v Hk] _. cbn in Hk.
    now apply lookup_singleton_Some in Hk as [<- _].
Defined.

(** Keys that name the same header read the same values. *)
Lemma Header_Values_sameHeader (h : http.Header) (key key' : string) :
  spec.sameHeader key key' ->
  http.Header_Values h key = http.Header_Values h key'.
Proof. intros Hsame. unfold http.Header_Values. now rewrite Hsame. Qed.

(** C5 as stated fails: the claim has every key of the caller read back
    with the caller's value for that key.  With the caller's headers
    [X-A: 1] and [x-a: 2], two keys of the map and one header of the request,
    one of the two values is lost, in whatever order the loop visits them.
    This is so for any library in which the URL parses. *)
Lemma C5_colliding_keys :
  ~ (exists L : Lib,
       (exists u : url.URL, url_Parse L "https://example.com/" = Ok u) /\
       forall (params : RequestParams) (visit : list (string * string))
              (req : http.Request),
         rangeOrder (Headers params) visit ->
         buildRequest L params visit = Ok req ->
         forall k v : string,
           Headers params !! k = Some v ->
           http.Header_Values (http.Header_ req) k = [v]).
Proof.
  intros (L & (u & Hparse) & Hclaim).
  pose (headers := <["X-A" := "1"]> {["x-a" := "2"]} : gmap string string).
  pose (visit := [("X-A", "1"); ("x-a", "2")]).
  pose (p := sample.params "GET" "chrome" headers "").
  assert (rangeOrder (Headers p) visit) as Hrange.
  { change (visit ≡ₚ map_to_list headers). unfold visit, headers.
    rewrite map_to_list_insert by (now apply lookup_singleton_ne).
    now rewrite map_to_list_singleton. }
  assert (buildRequest L p visit = Ok (assembled L p visit u)) as Hbuild.
  { apply buildRequest_Ok. split; [reflexivity|].
    exists u. split; [exact Hparse|reflexivity]. }
  pose proof (Hclaim p visit (assembled L p visit u) Hrange Hbuild) as Hread.
  assert (http.Header_Values (http.Header_ (assembled L p visit u)) "X-A"
          = ["1"]) as Hupper.
  { apply (Hread "X-A" "1"). change (headers !! "X-A" = Some "1").
    unfold headers. apply lookup_insert_eq. }
  assert (http.Header_Values (http.Header_ (assembled L p visit u)) "x-a"
          = ["2"]) as Hlower.
  { apply (Hread "x-a" "2"). change (headers !! "x-a" = Some "2").
    unfold headers. rewrite lookup_insert_ne by discriminate.
    apply lookup_singleton_eq. }
  rewrite (Header_Values_sameHeader _ "x-a" "X-A" eq_refl), Hupper in Hlower.
  discriminate Hlower.
Qed.

(** C9 (as amended).  When the caller's map has no entry under the key
    [User-Agent] and the lower-cased profile name is none of chrome, firefox
    and safari, the default User-Agent step sets the Chrome string.  The
    request that is built carries it when no key of the caller names the
    User-Agent header; when a key in another spelling does, the request
    carries the value of such a key instead.  All this is the case of a
    profile name that lower-cases to ios, whose handshake descriptor is the
    iOS one. *)
Theorem C9_ios_default_user_agent (L : Lib) (params : RequestParams) :
  Headers params !! "User-Agent" = None ->
  ~ In (strings.ToLower L (JA3Profile params)) ["chrome"; "firefox"; "safari"] ->
  (forall h : http.Header,
     setDefaultUserAgent L params h = http.Header_Set h "User-Agent" UA_Chrome /\
     http.Header_Get (setDefaultUserAgent L params h) "User-Agent" = UA_Chrome) /\
  (forall (visit : list (string * string)) (req : http.Request),
     rangeOrder (Headers params) visit ->
     buildRequest L params visit = Ok req ->
     ((forall k, is_Some (Headers params !! k) -> ~ spec.isUserAgent k) ->
      http.Header_Get (http.Header_ req) "User-Agent" = UA_Chrome) /\
     ((exists k v, Headers params !! k = Some v /\ spec.isUserAgent k) ->
      exists k v,
        Headers params !! k = Some v /\ spec.isUserAgent k /\
        k <> "User-Agent" /\
        http.Header_Get (http.Header_ req) "User-Agent" = v)) /\
  (strings.ToLower L (JA3Profile params) = "ios" ->
   selectClientHello L (JA3Profile params) = HelloIOS_16).
Proof.
  intros Hnone Hprofile.
  assert (defaultUserAgent L (JA3Profile params) = UA_Chrome) as Hdefault.
  { unfold defaultUserAgent. cbv zeta.
    repeat match goal with
    | |- context [String.eqb ?a ?b] =>
        destruct (String.eqb_spec a b) as [Heq|_];
        [exfalso; apply Hprofile; rewrite Heq; cbn; tauto|]
    end.
    reflexivity. }
  split; [|split].
  - intros h. rewrite setDefaultUserAgent_absent, Hdefault by exact Hnone.
    split; [reflexivity|].
    unfold http.Header_Get.
    now rewrite (Header_Values_lookup _ _ _ (Header_Set_lookup h _ _)).
  - intros visit req Hrange Hbuild.
    apply buildRequest_Ok in Hbuild as (_ & u & _ & ->). split.
    + intros Hnokey. unfold http.Header_Get.
      now rewrite (assembled_default_user_agent L params visit u Hrange Hnokey),
        Hdefault.
    + intros (k & v & Hkv & Hk).
      destruct (assembled_header L params visit u "User-Agent" Hrange)
        as [[_ Hno]|(k' & v' & Hkv' & Hk' & Hv')].
      * exfalso. now apply (Hno k v Hkv).
      * exists k', v'. split; [exact Hkv'|]. split; [exact Hk'|]. split.
        -- intros ->. rewrite Hnone in Hkv'. discriminate Hkv'.
        -- unfold http.Header_Get. now rewrite Hv'.
  - intros Hios. unfold selectClientHello. now rewrite Hios.
Qed.

(** C9, on inputs: the request built for profile [iOS] without headers
    carries the Chrome User-Agent, and its descriptor is the iOS one. *)
Lemma C9_ios_default_user_agent_witness :
  http.Header_Get
    (http.Header_
       (assembled sample.lib (sample.params "GET" "iOS" ∅ "") []
          sample.example_com))
    "User-Agent" = UA_Chrome /\
  selectClientHello sample.lib "iOS" = HelloIOS_16.
Proof.
  assert (~ In (strings.ToLower sample.lib "iOS") ["chrome"; "firefox"; "safari"])
    as Hprofile.
  { vm_compute. intros H. decompose [or] H; try discriminate; assumption. }
  assert (rangeOrder ∅ []) as Hrange.
  { unfold rangeOrder. now rewrite map_to_list_empty. }
  destruct (C9_ios_default_user_agent sample.lib
              (sample.params "GET" "iOS" ∅ "") (lookup_empty _) Hprofile)
    as (_ & Hrequest & Hhello).
  split; [|apply Hhello; reflexivity].
  destruct (Hrequest [] _ Hrange (sample_buildRequest "GET" _ _ _ _ eq_refl))
    as [Hchrome _].
  apply Hchrome. intros k [v Hk]. cbn in Hk.
  rewrite lookup_empty in Hk. discriminate Hk.
Defined.

(** C9 as stated fails: the claim has an ios-profile request carry the
    Chrome User-Agent whenever the caller's map has no entry under the exact
    key [User-Agent].  With profile [iOS] and the one header
    [user-agent: evil] there is no such entry, and the request carries
    [evil].  This is so for any library in which the URL parses. *)
Lemma C9_other_spelling_overrides :
  ~ (exists L : Lib,
       (exists u : url.URL, url_Parse L "https://example.com/" = Ok u) /\
       forall (params : RequestParams) (visit : list (string * string))
              (req : http.Request),
         rangeOrder (Headers params) visit ->
         buildRequest L params visit = Ok req ->
         Headers params !! "User-Agent" = None ->
         ~ In (strings.ToLower L (JA3Profile params))
             ["chrome"; "firefox"; "safari"] ->
         http.Header_Get (http.Header_ req) "User-Agent" = UA_Chrome).
Proof.
  intros (L & (u & Hparse) & Hclaim).
  pose (headers := {["user-agent" := "evil"]} : gmap string string).
  pose (visit := [("user-agent", "evil")]).
  pose (p := sample.params "GET" "iOS" headers "").
  assert (rangeOrder (Headers p) visit) as Hrange.
  { change (visit ≡ₚ map_to_list headers). unfold visit, headers.
    now rewrite map_to_list_singleton. }
  assert (buildRequest L p visit = Ok (assembled L p visit u)) as Hbuild.
  { apply buildRequest_Ok. split; [reflexivity|].
    exists u. split; [exact Hparse|reflexivity]. }
  assert (http.Header_Get (http.Header_ (assembled L p visit u)) "User-Agent"
          = UA_Chrome) as Hsaid.
  { apply (Hclaim p visit (assembled L p visit u) Hrange Hbuild).
    - change (headers !! "User-Agent" = None).
      unfold headers. apply lookup_singleton_ne.
      intros Heq. discriminate Heq.
    - change (~ In (strings.ToLower L "iOS") ["chrome"; "firefox"; "safari"]).
      change (strings.ToLower L "iOS") with "ios".
      intros H. cbn in H. decompose [or] H; try discriminate; assumption. }
  assert (http.Header_Get (http.Header_ (assembled L p visit u)) "User-Agent"
          = "evil") as Hreal.
  { unfold http.Header_Get.
    rewrite (Header_Values_lookup _ "User-Agent" ["evil"]); [reflexivity|].
    cbn [assembled http.Header_ visit addCustomHeaders fold_left fst snd].
    exact (Header_Set_lookup _ "user-agent" "evil"). }
  rewrite Hreal in Hsaid. discriminate Hsaid.
Qed.

(** ** Method, target and body *)

(** C4 (as amended).  The request [SendRequest] assembles has the method it
    was given, as it is, the empty method being read as GET; its URL is what
    [url.Parse] makes of the target it was given, with the colon of an empty
    port dropped from the host and no other change.  The CLI upper-cases the
    method before it calls [SendRequest], so the request of a CLI run has
    the upper-cased method when that is not empty. *)
Theorem C4_method_and_target (L : Lib) (params : RequestParams)
    (visit : list (string * string)) (req : http.Request) :
  buildRequest L params visit = Ok req ->
  (Method params <> "" -> http.Method req = Method params) /\
  (Method params = "" -> http.Method req = "GET") /\
  (exists u : url.URL,
     url_Parse L (URL params) = Ok u /\
     url.Scheme (http.URL req) = url.Scheme u /\
     url.Opaque (http.URL req) = url.Opaque u /\
     url.Host (http.URL req) = http.removeEmptyPort (url.Host u) /\
     url.Path (http.URL req) = url.Path u /\
     url.RawQuery (http.URL req) = url.RawQuery u /\
     url.Fragment (http.URL req) = url.Fragment u) /\
  (forall (target method ja3Profile data : string)
          (headers : gmap string string),
     params = main.params L target method ja3Profile data headers ->
     URL params = target /\
     Method params = strings.ToUpper L method /\
     (strings.ToUpper L method <> "" ->
      http.Method req = strings.ToUpper L method)).
Proof.
  intros Hbuild. apply buildRequest_Ok in Hbuild as (_ & u & Hparse & ->).
  assert (Method params <> "" ->
          http.Method (assembled L params visit u) = Method params) as Hsame.
  { intros Hne. cbn [assembled http.Method]. unfold methodOrGET.
    now destruct (String.eqb_spec (Method params) ""). }
  split; [exact Hsame|]. split; [|split].
  - intros Hempty. cbn [assembled http.Method]. now rewrite Hempty.
  - exists u. now repeat split.
  - intros target method ja3Profile data headers Hmain.
    split; [now rewrite Hmain|]. split; [now rewrite Hmain|].
    intros Hne. rewrite Hsame; now rewrite Hmain.
Qed.

(** C4, on inputs: the method [post] given to [SendRequest] stays [post];
    the CLI's [-method post] reaches the request as [POST]. *)
Lemma C4_method_and_target_witness :
  http.Method
    (assembled sample.lib (sample.params "post" "chrome" ∅ "") []
       sample.example_com) = "post" /\
  http.Method
    (assembled sample.lib
       (main.params sample.lib "https://example.com/" "post" "chrome" "" ∅) []
       sample.example_com) = "POST".
Proof.
  split.
  - destruct (C4_method_and_target sample.lib
                (sample.params "post" "chrome" ∅ "") [] _
                (sample_buildRequest "post" _ _ _ _ eq_refl))
      as (Hsame & _).
    apply Hsame. discriminate.
  - destruct (C4_method_and_target sample.lib
                (main.params sample.lib "https://example.com/" "post" "chrome" "" ∅)
                [] _ (sample_buildRequest "POST" "chrome" ∅ "" [] eq_refl))
      as (_ & _ & _ & Hcli).
    destruct (Hcli "https://example.com/" "post" "chrome" "" ∅ eq_refl)
      as (_ & _ & Hupper).
    apply Hupper. discriminate.
Defined.

(** C4 as stated fails, on both readings of the supplied method.  Given
    the method [get], [SendRequest] assembles a request with the method
    [get], not [GET]: it does not normalize.  Given the empty method the CLI
    passes on the empty method, and the request has the method [GET], which
    is not the upper-cased empty string.  This is so for any library in
    which the URL parses. *)
Lemma C4_method_not_normalized :
  ~ (exists L : Lib,
       (exists u : url.URL, url_Parse L "https://example.com/" = Ok u) /\
       forall (params : RequestParams) (visit : list (string * string))
              (req : http.Request),
         buildRequest L params visit = Ok req ->
         http.Method req = strings.ToUpper L (Method params)) /\
  ~ (exists L : Lib,
       (exists u : url.URL, url_Parse L "https://example.com/" = Ok u) /\
       forall (target method ja3Profile data : string)
              (headers : gmap string string)
              (visit : list (string * string)) (req : http.Request),
         buildRequest L (main.params L target method ja3Profile data headers)
           visit = Ok req ->
         http.Method req = strings.ToUpper L method).
Proof.
  split.
  - intros (L & (u & Hparse) & Hclaim).
    assert (buildRequest L (sample.params "get" "chrome" ∅ "") []
            = Ok (assembled L (sample.params "get" "chrome" ∅ "") [] u))
      as Hbuild.
    { apply buildRequest_Ok. split; [reflexivity|].
      exists u. split; [exact Hparse|reflexivity]. }
    apply Hclaim in Hbuild. discriminate Hbuild.
  - intros (L & (u & Hparse) & Hclaim).
    assert (buildRequest L
              (main.params L "https://example.com/" "" "chrome" "" ∅) []
            = Ok (assembled L
                    (main.params L "https://example.com/" "" "chrome" "" ∅)
                    [] u)) as Hbuild.
    { apply buildRequest_Ok. split; [reflexivity|].
      exists u. split; [exact Hparse|reflexivity]. }
    apply Hclaim in Hbuild. discriminate Hbuild.
Qed.

(** C6.  Reading the body of the assembled request gives the bytes of the
    request body that was supplied, and the content length is their number;
    without a body (the empty string) the request has no body. *)
Theorem C6_body (L : Lib) (params : RequestParams)
    (visit : list (string * string)) (req : http.Request) :
  buildRequest L params visit = Ok req ->
  http.ReadAll (http.Body_ req) = RequestBody params /\
  http.ContentLength req = String.length (RequestBody params) /\
  (RequestBody params = "" -> http.Body_ req = http.NoBody).
Proof.
  intros Hbuild. apply buildRequest_Ok in Hbuild as (_ & u & _ & ->).
  cbn [assembled http.Body_ http.ContentLength].
  split; [|split; [reflexivity|]].
  - destruct (RequestBody params) as [|c body]; reflexivity.
  - intros ->. reflexivity.
Qed.

(** C6, on inputs: the body [{a:1}] of a POST is read back as it is. *)
Lemma C6_body_witness :
  http.ReadAll
    (http.Body_
       (assembled sample.lib
          (sample.params "POST" "chrome" ∅ "{a:1}") []
          sample.example_com)) = "{a:1}".
Proof.
  apply (C6_body sample.lib (sample.params "POST" "chrome" ∅ "{a:1}") [] _
           (sample_buildRequest "POST" _ _ _ _ eq_refl)).
Defined.

(** ** The header flag of the CLI *)

(** C10.  [headersFlag.Set] on an argument without a colon returns the
    format error and leaves the map as it was.  On an argument with a colon
    it returns no error and the map with one entry written, the others as
    they were: the entry's key is what precedes the first colon and its
    value what follows it, both trimmed of surrounding white space. *)
Theorem C10_header_flag (L : Lib) (h : gmap string string) (value : string) :
  (~ spec.hasByte ":" value ->
   main.Set_ L h value = (Some "header must be in 'Key: Value' format", h)) /\
  (spec.hasByte ":" value ->
   exists key val : string,
     main.Set_ L h value = (None, <[key := val]> h) /\
     (main.Set_ L h value).2 !! key = Some val /\
     (forall k : string, k <> key -> (main.Set_ L h value).2 !! k = h !! k)) /\
  (forall before after : string,
     ~ spec.hasByte ":" before ->
     value = before +:+ String ":" after ->
     main.Set_ L h value =
       (None, <[strings.TrimSpace L before := strings.TrimSpace L after]> h)).
Proof.
  assert (forall before after : string,
            ~ spec.hasByte ":" before ->
            main.Set_ L h (before +:+ String ":" after) =
              (None,
               <[strings.TrimSpace L before := strings.TrimSpace L after]> h))
    as Hcut.
  { intros before after Hno. unfold main.Set_.
    now rewrite SplitN2_cut by exact Hno. }
  split; [|split].
  - intros Hno. unfold main.Set_. now rewrite SplitN2_whole by exact Hno.
  - intros Hcolon.
    destruct (hasByte_cut value ":" Hcolon) as (before & after & -> & Hno).
    exists (strings.TrimSpace L before), (strings.TrimSpace L after).
    rewrite (Hcut before after Hno). cbn [snd].
    split; [reflexivity|]. split; [apply lookup_insert_eq|].
    intros k Hk. now apply lookup_insert_ne.
  - intros before after Hno ->. now apply Hcut.
Qed.

(** C10, on inputs: [Content-Type: application/json] is stored under
    [Content-Type]; [no-colon] is refused and the map stays empty. *)
Lemma C10_header_flag_witness :
  main.Set_ sample.lib ∅ "Content-Type: application/json" =
    (None, <["Content-Type" := "application/json"]> ∅) /\
  main.Set_ sample.lib ∅ "no-colon" =
    (Some "header must be in 'Key: Value' format", ∅).
Proof.
  split.
  - destruct (C10_header_flag sample.lib ∅ "Content-Type: application/json")
      as (_ & _ & Hcut).
    apply (Hcut "Content-Type" " application/json"); [|reflexivity].
    vm_compute. intros H. decompose [or] H; try discriminate; assumption.
  - destruct (C10_header_flag sample.lib ∅ "no-colon") as (Hno & _).
    apply Hno.
    vm_compute. intros H. decompose [or] H; try discriminate; assumption.
Defined.

(** * Further properties of the code *)

(** ** The headers of the assembled request *)

Lemma setDefaultUserAgent_empty (L : Lib) (params : RequestParams)
    (K : string) (vs : list string) :
  setDefaultUserAgent L params ∅ !! K = Some vs ->
  K = "User-Agent" /\ vs = [defaultUserAgent L (JA3Profile params)] /\
  Headers params !! "User-Agent" = None.
Proof.
  destruct (Headers params !! "User-Agent") as [v|] eqn:Hua.
  - unfold setDefaultUserAgent. rewrite Hua, lookup_empty. discriminate.
  - rewrite setDefaultUserAgent_absent by exact Hua.
    unfold http.Header_Set.
    intros [[<- <-]|[_ Hempty]]%lookup_insert_Some.
    + now repeat split.
    + rewrite lookup_empty in Hempty. discriminate Hempty.
Qed.

(** X1.  Every header of the assembled request has exactly one value:
    the code only ever sets headers, it never adds a second value. *)
Theorem X1_headers_single_valued (L : Lib) (params : RequestParams)
    (visit : list (string * string)) (req : http.Request) :
  buildRequest L params visit = Ok req ->
  forall (K : string) (vs : list string),
    http.Header_ req !! K = Some vs -> exists v : string, vs = [v].
Proof.
  intros Hbuild K vs. apply buildRequest_Ok in Hbuild as (_ & u & _ & ->).
  cbn [assembled http.Header_].
  destruct (addCustomHeaders_lookup visit (setDefaultUserAgent L params ∅) K)
    as [[-> _]|(k & v & _ & _ & ->)].
  - intros (_ & -> & _)%setDefaultUserAgent_empty. now eexists.
  - intros [= <-]. now eexists.
Qed.

(** X1, on inputs: the request for [Accept: a] with profile chrome holds
    one value under [Accept]. *)
Lemma X1_headers_single_valued_witness :
  exists v : string,
    http.Header_
      (assembled sample.lib (sample.params "GET" "chrome" {["Accept" := "a"]} "")
         [("Accept", "a")] sample.example_com) !! "Accept" = Some [v].
Proof.
  assert (http.Header_
            (assembled sample.lib
               (sample.params "GET" "chrome" {["Accept" := "a"]} "")
               [("Accept", "a")] sample.example_com) !! "Accept"
          = Some ["a"]) as Hlookup.
  { cbn [assembled http.Header_ addCustomHeaders fold_left fst snd].
    exact (Header_Set_lookup _ "Accept" "a"). }
  destruct (X1_headers_single_valued sample.lib
              (sample.params "GET" "chrome" {["Accept" := "a"]} "")
              [("Accept", "a")] _ (sample_buildRequest "GET" _ _ _ _ eq_refl)
              "Accept" ["a"] Hlookup) as [v Hv].
  exists v. now rewrite <- Hv.
Defined.

(** X2.  The assembled request always carries a User-Agent, with one
    value, and no header the caller did not name: every header name of the
    request is [User-Agent] or the canonical form of a key of the caller. *)
Theorem X2_user_agent_always_and_no_other_header (L : Lib)
    (params : RequestParams) (visit : list (string * string))
    (req : http.Request) :
  rangeOrder (Headers params) visit ->
  buildRequest L params visit = Ok req ->
  (exists v : string,
     http.Header_Values (http.Header_ req) "User-Agent" = [v]) /\
  (forall K : string,
     is_Some (http.Header_ req !! K) ->
     K = "User-Agent" \/
     exists k : string,
       is_Some (Headers params !! k) /\
       textproto.CanonicalMIMEHeaderKey k = K).
Proof.
  intros Hrange Hbuild. apply buildRequest_Ok in Hbuild as (_ & u & _ & ->).
  split.
  - destruct (assembled_header L params visit u "User-Agent" Hrange)
      as [[_ Hnone]|(k & v & _ & _ & Hv)]; [|now exists v].
    eexists. apply (assembled_default_user_agent L params visit u Hrange).
    intros k [v Hkv] Hk. now apply (Hnone k v Hkv).
  - intros K [vs HK]. cbn [assembled http.Header_] in HK.
    destruct (addCustomHeaders_lookup visit (setDefaultUserAgent L params ∅) K)
      as [[Hsame _]|(k & v & Hin & Hk & _)].
    + left. rewrite Hsame in HK.
      now apply setDefaultUserAgent_empty in HK as (-> & _).
    + right. exists k. split; [|exact Hk].
      exists v. now apply (rangeOrder_In _ _ k v Hrange).
Qed.

(** X2, on inputs: the request for [Accept: a] with profile firefox carries
    the Firefox User-Agent. *)
Lemma X2_user_agent_always_and_no_other_header_witness :
  exists v : string,
    http.Header_Values
      (http.Header_
         (assembled sample.lib
            (sample.params "GET" "firefox" {["Accept" := "a"]} "")
            [("Accept", "a")] sample.example_com)) "User-Agent" = [v].
Proof.
  assert (rangeOrder {["Accept" := "a"]} [("Accept", "a")]) as Hrange.
  { unfold rangeOrder. now rewrite map_to_list_singleton. }
  apply (X2_user_agent_always_and_no_other_header sample.lib
           (sample.params "GET" "firefox" {["Accept" := "a"]} "")
           [("Accept", "a")] _ Hrange
           (sample_buildRequest "GET" _ _ _ _ eq_refl)).
Defined.

(** X3.  When no two keys of the caller name the same header, the order in
    which the loop visits the map does not matter: any two orders give the
    same request. *)
Theorem X3_order_irrelevant_without_collision (L : Lib)
    (params : RequestParams) (visit visit' : list (string * string))
    (req req' : http.Request) :
  rangeOrder (Headers params) visit ->
  rangeOrder (Headers params) visit' ->
  (forall k k' : string,
     is_Some (Headers params !! k) -> is_Some (Headers params !! k') ->
     spec.sameHeader k k' -> k = k') ->
  buildRequest L params visit = Ok req ->
  buildRequest L params visit' = Ok req' ->
  req = req'.
Proof.
  intros Hrange Hrange' Hinj Hbuild Hbuild'.
  apply buildRequest_Ok in Hbuild as (_ & u & Hu & ->).
  apply buildRequest_Ok in Hbuild' as (_ & u' & Hu' & ->).
  assert (u' = u) as -> by congruence.
  assert (addCustomHeaders visit (setDefaultUserAgent L params ∅)
          = addCustomHeaders visit' (setDefaultUserAgent L params ∅)) as Heq.
  { apply map_eq. intros K.
    destruct (addCustomHeaders_lookup visit (setDefaultUserAgent L params ∅) K)
      as [[-> Hnone]|(k & v & Hin & Hk & ->)];
    destruct (addCustomHeaders_lookup visit' (setDefaultUserAgent L params ∅) K)
      as [[-> Hnone']|(k' & v' & Hin' & Hk' & ->)].
    - reflexivity.
    - exfalso. apply (Hnone k' v'); [|exact Hk'].
      apply (rangeOrder_In _ _ k' v' Hrange).
      now apply (rangeOrder_In _ _ k' v' Hrange').
    - exfalso. apply (Hnone' k v); [|exact Hk].
      apply (rangeOrder_In _ _ k v Hrange').
      now apply (rangeOrder_In _ _ k v Hrange).
    - apply (rangeOrder_In _ _ k v Hrange) in Hin.
      apply (rangeOrder_In _ _ k' v' Hrange') in Hin'.
      assert (k = k') as <-.
      { apply Hinj; [now exists v|now exists v'|].
        unfold spec.sameHeader. now rewrite Hk, Hk'. }
      congruence. }
  unfold assembled. now rewrite Heq.
Qed.

(** X3, on inputs: [Accept: a] and [X-B: b] visited in either order give the
    same request. *)
Lemma X3_order_irrelevant_without_collision_witness :
  assembled sample.lib
    (sample.params "GET" "chrome" (<["Accept" := "a"]> {["X-B" := "b"]}) "")
    [("Accept", "a"); ("X-B", "b")] sample.example_com =
  assembled sample.lib
    (sample.params "GET" "chrome" (<["Accept" := "a"]> {["X-B" := "b"]}) "")
    [("X-B", "b"); ("Accept", "a")] sample.example_com.
Proof.
  pose (headers := <["Accept" := "a"]> {["X-B" := "b"]} : gmap string string).
  pose (p := sample.params "GET" "chrome" headers "").
  assert (rangeOrder (Headers p) [("Accept", "a"); ("X-B", "b")]) as Hrange.
  { change ([("Accept", "a"); ("X-B", "b")] ≡ₚ map_to_list headers).
    unfold headers.
    rewrite map_to_list_insert by (now apply lookup_singleton_ne).
    now rewrite map_to_list_singleton. }
  assert (rangeOrder (Headers p) [("X-B", "b"); ("Accept", "a")]) as Hrange'.
  { unfold rangeOrder in *. rewrite <- Hrange. apply perm_swap. }
  apply (X3_order_irrelevant_without_collision sample.lib p
           [("Accept", "a"); ("X-B", "b")] [("X-B", "b"); ("Accept", "a")]
           _ _ Hrange Hrange').
  - change (forall k k' : string,
              is_Some (headers !! k) -> is_Some (headers !! k') ->
              spec.sameHeader k k' -> k = k').
    unfold headers. intros k k' [v Hk] [v' Hk'] Hsame.
    apply lookup_insert_Some in Hk as [[<- _]|[_ Hk]];
      apply lookup_insert_Some in Hk' as [[<- _]|[_ Hk']];
      try apply lookup_singleton_Some in Hk as [<- _];
      try apply lookup_singleton_Some in Hk' as [<- _];
      try reflexivity; discriminate Hsame.
  - exact (sample_buildRequest "GET" "chrome" headers "" _ eq_refl).
  - exact (sample_buildRequest "GET" "chrome" headers "" _ eq_refl).
Defined.

(** ** Requests that are not sent *)

(** X4.  A request that cannot be built is not sent: [SendRequest] returns
    the error, [client.Do] is not called and the world is as it was.  A
    method that is not empty and has a byte that is no token byte gives the
    invalid-method error, whether or not the URL parses; with a valid
    method, a URL that does not parse gives the parser's error. *)
Theorem X4_build_failure_sends_nothing (L : Lib) (N : Network)
    (client_Do : Do) (params : RequestParams)
    (visit : list (string * string)) (w : World) :
  (Method params <> "" ->
   allBytes isTokenByte (Method params) = false ->
   SendRequest L N client_Do params visit w =
     (Err ("net/http: invalid method " +:+ strconv_Quote L (Method params)),
      w)) /\
  (forall e : error,
     http.validMethod (methodOrGET (Method params)) = true ->
     url_Parse L (URL params) = Err e ->
     SendRequest L N client_Do params visit w = (Err e, w)).
Proof.
  split.
  - intros Hne Hbad.
    unfold SendRequest, buildRequest, http.NewRequest.
    destruct (String.eqb_spec (Method params) "") as [Hempty|_];
      [contradiction|].
    unfold http.validMethod. rewrite Hbad, andb_false_r. reflexivity.
  - intros e Hvalid Hparse.
    unfold SendRequest, buildRequest, http.NewRequest.
    fold (methodOrGET (Method params)). rewrite Hvalid, Hparse. reflexivity.
Qed.

(** X4, on inputs: the method [GE T] is refused and no call reaches the
    network. *)
Lemma X4_build_failure_sends_nothing_witness :
  exists e : error,
    SendRequest sample.lib sample.friendly sample.answers
      (sample.params "GE T" "chrome" ∅ "") [] sample.w0 = (Err e, sample.w0).
Proof.
  eexists.
  destruct (X4_build_failure_sends_nothing sample.lib sample.friendly
              sample.answers (sample.params "GE T" "chrome" ∅ "") []
              sample.w0) as [Hmethod _].
  apply Hmethod; [discriminate|reflexivity].
Defined.

(** ** The profile, end to end *)

(** [SendRequest] depends on the profile name through the descriptor and
    the default User-Agent only. *)
Lemma SendRequest_profile (L : Lib) (N : Network) (client_Do : Do)
    (target method profile profile' : string) (headers : gmap string string)
    (body : string) (visit : list (string * string)) :
  selectClientHello L profile = selectClientHello L profile' ->
  defaultUserAgent L profile = defaultUserAgent L profile' ->
  SendRequest L N client_Do
    (mkRequestParams target method profile headers body) visit =
  SendRequest L N client_Do
    (mkRequestParams target method profile' headers body) visit.
Proof.
  intros Hhello Hua.
  assert (forall h : http.Header,
            setDefaultUserAgent L
              (mkRequestParams target method profile headers body) h =
            setDefaultUserAgent L
              (mkRequestParams target method profile' headers body) h)
    as Hdefault.
  { intros h. destruct (headers !! "User-Agent") as [v|] eqn:Hlookup.
    - unfold setDefaultUserAgent. cbn [Headers]. now rewrite Hlookup.
    - rewrite !setDefaultUserAgent_absent by exact Hlookup.
      cbn [JA3Profile]. now rewrite Hua. }
  unfold SendRequest, buildRequest. cbn [JA3Profile Method URL RequestBody].
  rewrite Hhello.
  destruct (http.NewRequest L method target _) as [req|e]; [|reflexivity].
  now rewrite Hdefault.
Qed.

Lemma defaultUserAgent_unknown (L : Lib) (name : string) :
  ~ In (strings.ToLower L name) spec.profiles ->
  defaultUserAgent L name = UA_Chrome.
Proof.
  intros Hnot. unfold defaultUserAgent. cbv zeta.
  repeat match goal with
  | |- context [String.eqb ?a ?b] =>
      destruct (String.eqb_spec a b) as [Heq|_];
      [exfalso; apply Hnot; rewrite Heq; cbn; tauto|]
  end.
  reflexivity.
Qed.

(** X5.  A profile name that lower-cases to none of the five names of
    the table is the profile chrome in every respect: [SendRequest] does
    with it, in every world, what it does with [chrome]. *)
Theorem X5_unknown_profile_is_chrome (L : Lib) (N : Network) (client_Do : Do)
    (target method name : string) (headers : gmap string string)
    (body : string) (visit : list (string * string)) :
  ~ In (strings.ToLower L name) spec.profiles ->
  SendRequest L N client_Do
    (mkRequestParams target method name headers body) visit =
  SendRequest L N client_Do
    (mkRequestParams target method "chrome" headers body) visit.
Proof.
  intros Hnot. apply SendRequest_profile.
  - now rewrite selectClientHello_unknown.
  - now rewrite defaultUserAgent_unknown.
Qed.

(** X5, on inputs: [opera] is served as [chrome]. *)
Lemma X5_unknown_profile_is_chrome_witness :
  SendRequest sample.lib sample.friendly sample.answers
    (mkRequestParams "https://example.com/" "GET" "opera" ∅ "") [] =
  SendRequest sample.lib sample.friendly sample.answers
    (mkRequestParams "https://example.com/" "GET" "chrome" ∅ "") [].
Proof.
  apply (X5_unknown_profile_is_chrome sample.lib sample.friendly
           sample.answers "https://example.com/" "GET" "opera" ∅ "" []).
  vm_compute. intros H. decompose [or] H; try discriminate; assumption.
Defined.

(** X6.  The profile name counts up to case only, end to end: two names
    that lower-case alike give the same [SendRequest]. *)
Theorem X6_profile_case_insensitive (L : Lib) (N : Network) (client_Do : Do)
    (target method profile profile' : string) (headers : gmap string string)
    (body : string) (visit : list (string * string)) :
  strings.ToLower L profile = strings.ToLower L profile' ->
  SendRequest L N client_Do
    (mkRequestParams target method profile headers body) visit =
  SendRequest L N client_Do
    (mkRequestParams target method profile' headers body) visit.
Proof.
  intros Hlower. apply SendRequest_profile.
  - unfold selectClientHello. now rewrite Hlower.
  - unfold defaultUserAgent. now rewrite Hlower.
Qed.

(** X6, on inputs: [SAFARI] is served as [Safari]. *)
Lemma X6_profile_case_insensitive_witness :
  SendRequest sample.lib sample.friendly sample.answers
    (mkRequestParams "https://example.com/" "GET" "SAFARI" ∅ "") [] =
  SendRequest sample.lib sample.friendly sample.answers
    (mkRequestParams "https://example.com/" "GET" "Safari" ∅ "") [].
Proof.
  apply (X6_profile_case_insensitive sample.lib sample.friendly
           sample.answers "https://example.com/" "GET" "SAFARI" "Safari"
           ∅ "" []).
  reflexivity.
Defined.

(** ** The transport *)

(** X7.  The client [SendRequest] hands to [client.Do], whatever
    [client.Do] is, has the timeout of 60 seconds; each call of its dial
    function dials once, the network and address it was asked for, with a
    dialer of 30 seconds of timeout and keep-alive; and every handshake it
    attempts, like the connection it returns, carries the descriptor
    selected from the profile name of the request. *)
Theorem X7_transport_uses_profile (L : Lib) (N : Network)
    (params : RequestParams) (visit : list (string * string))
    (req : http.Request) :
  buildRequest L params visit = Ok req ->
  exists c : Client,
    (forall client_Do : Do,
       SendRequest L N client_Do params visit = client_Do c req) /\
    Client_Timeout c = 60 /\
    forall (network addr : string) (w : World),
      exists rest : list event,
        trace (DialTLS (Transport_ c) network addr w).2 =
          trace w ++ EvDial (mkDialer 30 30) network addr :: rest /\
        (forall (d : Dialer) (n a : string), ~ In (EvDial d n a) rest) /\
        (forall u : UConn,
           In (EvHandshake u) rest ->
           clientHelloID u = selectClientHello L (JA3Profile params)) /\
        (forall u : UConn,
           (DialTLS (Transport_ c) network addr w).1 = Ok u ->
           clientHelloID u = selectClientHello L (JA3Profile params)).
Proof.
  intros Hbuild.
  eexists. split; [|split].
  - intros client_Do. unfold SendRequest. rewrite Hbuild. reflexivity.
  - reflexivity.
  - intros network addr w.
    cbn [newClient Transport_ DialTLS]. rewrite dialTLS_run. cbv zeta.
    destruct (net_Dial N (trace w) _ network addr) as [c|e]; cbn.
    + destruct (tls_Handshake N _ _) as [e|]; cbn.
      * eexists [_; _]. split; [now rewrite <- !app_assoc|].
        split; [|split].
        -- intros d n a [H|[H|[]]]; discriminate H.
        -- intros u [[= <-]|[H|[]]]; [reflexivity|discriminate H].
        -- intros u H. discriminate H.
      * eexists [_]. split; [now rewrite <- !app_assoc|].
        split; [|split].
        -- intros d n a [H|[]]. discriminate H.
        -- intros u [[= <-]|[]]. reflexivity.
        -- intros u [= <-]. reflexivity.
    + exists []. split; [reflexivity|]. split; [|split].
      * intros d n a [].
      * intros u [].
      * intros u H. discriminate H.
Qed.

(** X7, on inputs: the client of a request with profile [Firefox] offers
    the Firefox descriptor in its handshake with [example.com:443]. *)
Lemma X7_transport_uses_profile_witness :
  exists c : Client,
    (forall client_Do : Do,
       SendRequest sample.lib sample.friendly client_Do
         (sample.params "GET" "Firefox" ∅ "") [] =
       client_Do c
         (assembled sample.lib (sample.params "GET" "Firefox" ∅ "") []
            sample.example_com)) /\
    exists rest : list event,
      trace (DialTLS (Transport_ c) "tcp" "example.com:443" sample.w0).2 =
        EvDial (mkDialer 30 30) "tcp" "example.com:443" :: rest /\
      forall u : UConn,
        In (EvHandshake u) rest -> clientHelloID u = HelloFirefox_108.
Proof.
  destruct (X7_transport_uses_profile sample.lib sample.friendly
              (sample.params "GET" "Firefox" ∅ "") [] _
              (sample_buildRequest "GET" "Firefox" ∅ "" [] eq_refl))
    as (c & Hsend & _ & Hdial).
  exists c. split; [exact Hsend|].
  destruct (Hdial "tcp" "example.com:443" sample.w0)
    as (rest & Htrace & _ & Hhello & _).
  exists rest. split; [exact Htrace|exact Hhello].
Defined.

(** X8.  A dial leaves the other connections alone.  The calls it makes are
    added to the trace, at most three; after an error no connection is open
    that was not open before; after a success the returned connection is
    the one that has been opened; and the only connection it ever closes is
    the one it dialed itself. *)
Theorem X8_dial_frame (N : Network) (dialer : Dialer) (hello : ClientHelloID)
    (network addr : string) (w : World) :
  (exists evs : list event,
     trace (dialTLS N dialer hello network addr w).2 = trace w ++ evs /\
     length evs <= 3 /\
     forall c : Conn,
       In (EvClose c) evs ->
       net_Dial N (trace w) dialer network addr = Ok c) /\
  (forall e : error,
     (dialTLS N dialer hello network addr w).1 = Err e ->
     open (dialTLS N dialer hello network addr w).2 ⊆ open w) /\
  (forall u : UConn,
     (dialTLS N dialer hello network addr w).1 = Ok u ->
     open (dialTLS N dialer hello network addr w).2 = {[conn u]} ∪ open w) /\
  (forall c : Conn,
     c ∈ open w ->
     net_Dial N (trace w) dialer network addr <> Ok c ->
     c ∈ open (dialTLS N dialer hello network addr w).2).
Proof.
  rewrite dialTLS_run. cbv zeta.
  destruct (net_Dial N (trace w) dialer network addr) as [c|e] eqn:Hdial.
  - destruct (tls_Handshake N _ _) as [e|]; cbn.
    + split; [|split; [|split]].
      * eexists [_; _; _]. split; [now rewrite <- !app_assoc|].
        split; [cbn; lia|].
        intros c' [H|[H|[[= <-]|[]]]]; try discriminate H. reflexivity.
      * intros _ _ c' [[->%elem_of_singleton|Hin]%elem_of_union Hout]%elem_of_difference;
          [|exact Hin].
        exfalso. apply Hout. now apply elem_of_singleton.
      * intros u H. discriminate H.
      * intros c' Hin Hne. apply elem_of_difference. split.
        -- now apply elem_of_union_r.
        -- intros ->%elem_of_singleton. now apply Hne.
    + split; [|split; [|split]].
      * eexists [_; _]. split; [now rewrite <- !app_assoc|].
        split; [cbn; lia|].
        intros c' [H|[H|[]]]; discriminate H.
      * intros e H. discriminate H.
      * intros u [= <-]. reflexivity.
      * intros c' Hin _. now apply elem_of_union_r.
  - cbn. split; [|split; [|split]].
    + eexists [_]. split; [reflexivity|]. split; [cbn; lia|].
      intros c' [H|[]]. discriminate H.
    + intros _ _. reflexivity.
    + intros u H. discriminate H.
    + intros c' Hin _. exact Hin.
Qed.

(** ** The header flag, set more than once *)

Lemma Set_cut (L : Lib) (h : gmap string string) (before after : string) :
  ~ spec.hasByte ":" before ->
  main.Set_ L h (before +:+ String ":" after) =
    (None, <[strings.TrimSpace L before := strings.TrimSpace L after]> h).
Proof.
  intros Hno. unfold main.Set_. now rewrite SplitN2_cut by exact Hno.
Qed.

Lemma Set_refused (L : Lib) (h : gmap string string) (value : string) :
  ~ spec.hasByte ":" value ->
  main.Set_ L h value = (Some "header must be in 'Key: Value' format", h).
Proof.
  intros Hno. unfold main.Set_. now rewrite SplitN2_whole by exact Hno.
Qed.

Lemma hasByte_dec (c : ascii) (s : string) :
  {spec.hasByte c s} + {~ spec.hasByte c s}.
Proof. apply In_dec, ascii_dec. Qed.

(** X9.  Of two header arguments whose keys are the same once trimmed, the
    later decides: the map is as if the earlier had not been given.  So
    giving an argument twice is giving it once. *)
Theorem X9_Set_last_wins (L : Lib) (h : gmap string string)
    (before after before' after' : string) :
  ~ spec.hasByte ":" before ->
  ~ spec.hasByte ":" before' ->
  strings.TrimSpace L before = strings.TrimSpace L before' ->
  (main.Set_ L (main.Set_ L h (before +:+ String ":" after)).2
     (before' +:+ String ":" after')).2 =
  (main.Set_ L h (before' +:+ String ":" after')).2.
Proof.
  intros Hno Hno' Hkey. rewrite !Set_cut by assumption. cbn [snd].
  rewrite Hkey. apply insert_insert_eq.
Qed.

(** X9, on inputs: after [Accept: a] and [ Accept :b] the map is that of
    [ Accept :b] alone. *)
Lemma X9_Set_last_wins_witness :
  (main.Set_ sample.lib (main.Set_ sample.lib ∅ "Accept: a").2 " Accept :b").2 =
  (main.Set_ sample.lib ∅ " Accept :b").2.
Proof.
  apply (X9_Set_last_wins sample.lib ∅ "Accept" " a" " Accept " "b").
  - vm_compute. intros H. decompose [or] H; try discriminate; assumption.
  - vm_compute. intros H. decompose [or] H; try discriminate; assumption.
  - reflexivity.
Defined.

(** X10.  Header arguments with different trimmed keys can be given in
    either order: the map is the same. *)
Theorem X10_Set_commutes (L : Lib) (h : gmap string string)
    (before after before' after' : string) :
  ~ spec.hasByte ":" before ->
  ~ spec.hasByte ":" before' ->
  strings.TrimSpace L before <> strings.TrimSpace L before' ->
  (main.Set_ L (main.Set_ L h (before +:+ String ":" after)).2
     (before' +:+ String ":" after')).2 =
  (main.Set_ L (main.Set_ L h (before' +:+ String ":" after')).2
     (before +:+ String ":" after)).2.
Proof.
  intros Hno Hno' Hkey. rewrite !Set_cut by assumption. cbn [snd].
  now apply insert_insert_ne.
Qed.

(** X10, on inputs: [Accept: a] and [X-B: b] in either order. *)
Lemma X10_Set_commutes_witness :
  (main.Set_ sample.lib (main.Set_ sample.lib ∅ "Accept: a").2 "X-B: b").2 =
  (main.Set_ sample.lib (main.Set_ sample.lib ∅ "X-B: b").2 "Accept: a").2.
Proof.
  apply (X10_Set_commutes sample.lib ∅ "Accept" " a" "X-B" " b").
  - vm_compute. intros H. decompose [or] H; try discriminate; assumption.
  - vm_compute. intros H. decompose [or] H; try discriminate; assumption.
  - discriminate.
Defined.

Lemma asciiSpace_ascii (c : ascii) :
  strings.asciiSpace c = true -> isASCIIByte c = true /\ c <> ":"%char.
Proof. destruct c as [[] [] [] [] [] [] [] []]; cbn; intros H; now try discriminate H. Qed.

Lemma TrimSpace_blank (L : Lib) (s : string) :
  allBytes strings.asciiSpace s = true -> strings.TrimSpace L s = "".
Proof.
  induction s as [|c s IH]; [reflexivity|].
  cbn [allBytes strings.TrimSpace]. intros [Hc Hs]%andb_true_iff.
  destruct (asciiSpace_ascii c Hc) as [-> _]. cbn [negb]. rewrite Hc.
  now apply IH.
Qed.

Lemma blank_no_colon (s : string) :
  allBytes strings.asciiSpace s = true -> ~ spec.hasByte ":" s.
Proof.
  induction s as [|c s IH]; [intros _ []|].
  cbn [allBytes]. intros [Hc Hs]%andb_true_iff. rewrite hasByte_cons.
  destruct (asciiSpace_ascii c Hc) as [_ Hne]. intros [Heq|Hin]; [tauto|].
  now apply IH.
Qed.

(** X11.  [Set] does not ask for a header name: an argument with nothing
    but ASCII white space before its first colon is accepted, and its value
    is stored under the empty key. *)
Theorem X11_Set_accepts_empty_name (L : Lib) (h : gmap string string)
    (blank after : string) :
  allBytes strings.asciiSpace blank = true ->
  main.Set_ L h (blank +:+ String ":" after) =
    (None, <["" := strings.TrimSpace L after]> h).
Proof.
  intros Hblank. rewrite Set_cut by (now apply blank_no_colon).
  now rewrite TrimSpace_blank.
Qed.

(** X11, on inputs: [ : v] is stored under the empty key. *)
Lemma X11_Set_accepts_empty_name_witness :
  main.Set_ sample.lib ∅ " : v" = (None, <["" := "v"]> ∅).
Proof.
  apply (X11_Set_accepts_empty_name sample.lib ∅ " " " v"). reflexivity.
Defined.

Lemma Set_accepted (L : Lib) (h : gmap string string) (value : string) :
  spec.hasByte ":" value ->
  exists key val : string, main.Set_ L h value = (None, <[key := val]> h).
Proof.
  intros Hcolon.
  destruct (hasByte_cut value ":" Hcolon) as (before & after & -> & Hno).
  eexists _, _. now apply Set_cut.
Qed.

Lemma SetAll_app (L : Lib) (h : gmap string string) (values more : list string) :
  (main.SetAll L h values).1 = None ->
  main.SetAll L h (values ++ more) = main.SetAll L (main.SetAll L h values).2 more.
Proof.
  revert h. induction values as [|value values IH]; intros h; [reflexivity|].
  cbn [main.SetAll app].
  destruct (main.Set_ L h value) as [[err|] h']; [discriminate|].
  apply IH.
Qed.

(** X12.  The header flags of a command line are accepted together or not
    at all: the parse goes through exactly when every [-H] argument has a
    colon, and otherwise ends with the format error; and no [-H] ever
    removes a key from the map. *)
Theorem X12_SetAll_all_or_error (L : Lib) (h : gmap string string)
    (values : list string) :
  ((main.SetAll L h values).1 = None <->
   Forall (spec.hasByte ":") values) /\
  ((main.SetAll L h values).1 = None \/
   (main.SetAll L h values).1 = Some "header must be in 'Key: Value' format") /\
  (forall k : string,
     is_Some (h !! k) -> is_Some ((main.SetAll L h values).2 !! k)).
Proof.
  revert h. induction values as [|value values IH]; intros h.
  - cbn. split; [split; [constructor|reflexivity]|]. split; [now left|tauto].
  - cbn [main.SetAll].
    destruct (hasByte_dec ":" value) as [Hcolon|Hno].
    + destruct (Set_accepted L h value Hcolon) as (key & val & ->).
      destruct (IH (<[key := val]> h)) as ((Hok & Hall) & Herr & Hkeep).
      split; [split|split].
      * intros H. constructor; [exact Hcolon|now apply Hok].
      * intros H. apply Hall. now inversion H.
      * exact Herr.
      * intros k Hk. apply Hkeep. apply lookup_insert_is_Some'. now right.
    + rewrite (Set_refused L h value Hno). cbn [fst snd].
      split; [split|split].
      * intros H. discriminate H.
      * intros H. inversion H. contradiction.
      * now right.
      * tauto.
Qed.

(** X13.  The last [-H] of a command line decides its key: when all the
    arguments are well formed, the map holds under the trimmed key of the
    last one its trimmed value. *)
Theorem X13_SetAll_last_wins (L : Lib) (h : gmap string string)
    (values : list string) (before after : string) :
  Forall (spec.hasByte ":") values ->
  ~ spec.hasByte ":" before ->
  main.SetAll L h (values ++ [before +:+ String ":" after]) =
    (None,
     <[strings.TrimSpace L before := strings.TrimSpace L after]>
       (main.SetAll L h values).2) /\
  (main.SetAll L h (values ++ [before +:+ String ":" after])).2
    !! strings.TrimSpace L before = Some (strings.TrimSpace L after).
Proof.
  intros Hall Hno.
  assert ((main.SetAll L h values).1 = None) as Hok.
  { revert h. induction values as [|value values IH]; intros h; [reflexivity|].
    inversion Hall as [|? ? Hcolon Hrest]; subst. cbn [main.SetAll].
    destruct (Set_accepted L h value Hcolon) as (key & val & ->).
    now apply IH. }
  rewrite (SetAll_app L h values _ Hok). cbn [main.SetAll].
  rewrite Set_cut by exact Hno. split; [reflexivity|].
  cbn [snd]. apply lookup_insert_eq.
Qed.

(** X13, on inputs: after [-H "Accept: a" -H "Accept: b"] the key [Accept]
    holds [b]. *)
Lemma X13_SetAll_last_wins_witness :
  (main.SetAll sample.lib ∅ ["Accept: a"; "Accept: b"]).2 !! "Accept"
  = Some "b".
Proof.
  apply (X13_SetAll_last_wins sample.lib ∅ ["Accept: a"] "Accept" " b").
  - constructor; [|constructor]. vm_compute. tauto.
  - vm_compute. intros H. decompose [or] H; try discriminate; assumption.
Defined.

(** ** From the command line to the request *)

(** X14.  A header given on the command line reaches the request trimmed:
    after [Set] of [before:after], the request built from the map holds the
    trimmed [after] as the one value of the header the trimmed [before]
    names, provided no other key of the map names that header. *)
Theorem X14_flag_header_reaches_request (L : Lib) (h : gmap string string)
    (before after target method ja3Profile data : string)
    (visit : list (string * string)) (req : http.Request) :
  ~ spec.hasByte ":" before ->
  (forall k : string,
     is_Some (h !! k) -> spec.sameHeader k (strings.TrimSpace L before) ->
     k = strings.TrimSpace L before) ->
  rangeOrder (main.Set_ L h (before +:+ String ":" after)).2 visit ->
  buildRequest L
    (main.params L target method ja3Profile data
       (main.Set_ L h (before +:+ String ":" after)).2) visit = Ok req ->
  http.Header_Values (http.Header_ req) (strings.TrimSpace L before)
  = [strings.TrimSpace L after].
Proof.
  intros Hno Honly. rewrite Set_cut by exact Hno. cbn [snd].
  set (key := strings.TrimSpace L before).
  set (val := strings.TrimSpace L after).
  intros Hrange Hbuild.
  apply buildRequest_Ok in Hbuild as (_ & u & _ & ->).
  destruct (assembled_header L
              (main.params L target method ja3Profile data (<[key := val]> h))
              visit u key Hrange) as [[_ Hnone]|(k & v & Hkv & Hk & Hv)].
  - exfalso. apply (Hnone key val); [|reflexivity].
    cbn [main.params Headers]. apply lookup_insert_eq.
  - cbn [main.params Headers] in Hkv.
    apply lookup_insert_Some in Hkv as [[<- <-]|[Hne Hkv]]; [exact Hv|].
    exfalso. apply Hne. symmetry. apply Honly; [now exists v|exact Hk].
Qed.

(** X14, on inputs: [-H "content-type:  text/plain "] alone gives the
    request the one Content-Type value [text/plain]. *)
Lemma X14_flag_header_reaches_request_witness :
  http.Header_Values
    (http.Header_
       (assembled sample.lib
          (main.params sample.lib "https://example.com/" "get" "chrome" ""
             (<["content-type" := "text/plain"]> ∅))
          [("content-type", "text/plain")] sample.example_com))
    "Content-Type" = ["text/plain"].
Proof.
  assert (rangeOrder
            (main.Set_ sample.lib ∅ "content-type:  text/plain ").2
            [("content-type", "text/plain")]) as Hrange.
  { change (rangeOrder (<["content-type" := "text/plain"]> ∅)
              [("content-type", "text/plain")]).
    unfold rangeOrder. now rewrite insert_empty, map_to_list_singleton. }
  apply (X14_flag_header_reaches_request sample.lib ∅
           "content-type" "  text/plain " "https://example.com/" "get"
           "chrome" "" [("content-type", "text/plain")] _).
  - vm_compute. intros H. decompose [or] H; try discriminate; assumption.
  - intros k [v Hk]. rewrite lookup_empty in Hk. discriminate Hk.
  - exact Hrange.
  - apply buildRequest_Ok. split; [reflexivity|].
    exists sample.example_com. split; reflexivity.
Defined.

(** ** The run of the CLI *)

Example flag_Parse_flags :
  main.flag_Parse sample.lib sample.os main.defaults
    ["-method=post"; "--ja3"; "Firefox"; "-H"; "Accept: a"; "https://a/"; "-x"]
  = main.Parsed (main.mkFlags "post" "Firefox" "" (<["Accept" := "a"]> ∅))
      ["https://a/"; "-x"].
Proof. reflexivity. Qed.

Example flag_Parse_terminator :
  main.flag_Parse sample.lib sample.os main.defaults ["--"; "-h"]
  = main.Parsed main.defaults ["-h"].
Proof. reflexivity. Qed.

Example flag_Parse_undefined :
  main.flag_Parse sample.lib sample.os main.defaults ["-X"; "POST"]
  = main.Exited 2
      (main.failf sample.os "flag provided but not defined: -X").
Proof. reflexivity. Qed.

(** [flag.Parse] ends the process with status 0, after the usage and
    nothing else, or with status 2. *)
Lemma flag_Parse_exit (L : Lib) (os : main.OS) (args : list string)
    (fl : main.Flags) (code : nat) (err : string) :
  main.flag_Parse L os fl args = main.Exited code err ->
  (code = 0 /\ err = main.usage os) \/ code = 2.
Proof.
  remember (length args) as n eqn:Hn.
  revert args fl Hn. induction n as [n IH] using lt_wf_ind.
  intros [|s rest] fl Hn; [discriminate|].
  cbn [main.flag_Parse].
  destruct (main.parseArg s) as [| | |name given]; try discriminate.
  - intros [= <- _]. now right.
  - destruct (main.isFormal name).
    + destruct given as [value|].
      * destruct (main.setFlag L fl name value) as [fl'|msg].
        -- apply (IH (length rest)); [cbn in Hn; lia|reflexivity].
        -- intros [= <- _]. now right.
      * destruct rest as [|value rest']; [intros [= <- _]; now right|].
        destruct (main.setFlag L fl name value) as [fl'|msg].
        -- apply (IH (length rest')); [cbn in Hn; lia|reflexivity].
        -- intros [= <- _]. now right.
    + destruct (String.eqb name "help" || String.eqb name "h").
      * intros [= <- <-]. now left.
      * intros [= <- _]. now right.
Qed.

(** X15.  [main] sends nothing unless the flags parse and exactly one
    argument remains.  When [flag.Parse] ends the run, the status is 0 and
    the standard error holds the usage (the help), or the status is 2; when
    the flags parse and the number of arguments that remain is not one, the
    status is 1 and the standard error holds the complaint and the usage.
    In both cases nothing is written to the standard output and the world
    is as it was. *)
Theorem X15_main_needs_one_url (L : Lib) (N : Network) (client_Do : Do)
    (os : main.OS) (argv : list string)
    (range : gmap string string -> list (string * string))
    (hrange : http.Header -> list (string * list string)) (w : World) :
  (forall (code : nat) (err : string),
     main.flag_Parse L os main.defaults argv = main.Exited code err ->
     main.run L N client_Do os argv range hrange w =
       ({| main.stdout := ""; main.stderr := err; main.exitCode := code;
           main.bodyClosed := false |}, w) /\
     ((code = 0 /\ err = main.usage os) \/ code = 2)) /\
  (forall (fl : main.Flags) (args : list string),
     main.flag_Parse L os main.defaults argv = main.Parsed fl args ->
     length args <> 1 ->
     main.run L N client_Do os argv range hrange w =
       ({| main.stdout := "";
           main.stderr :=
             "Error: You must specify exactly one URL." +:+ main.nl +:+
             main.usage os;
           main.exitCode := 1;
           main.bodyClosed := false |}, w)).
Proof.
  split.
  - intros code err Hparse. split; [|exact (flag_Parse_exit _ _ _ _ _ _ Hparse)].
    unfold main.run. now rewrite Hparse.
  - intros fl args Hparse Hlen. unfold main.run. rewrite Hparse.
    destruct args as [|a [|b args]]; try reflexivity.
    now contradiction Hlen.
Qed.

(** X15, on inputs: two URLs end with status 1, [-h] with status 0, a
    header without colon with status 2; none writes to the standard
    output. *)
Lemma X15_main_needs_one_url_witness :
  (main.run sample.lib sample.friendly sample.answers sample.os
     ["https://a/"; "https://b/"] map_to_list map_to_list sample.w0).1 =
    {| main.stdout := "";
       main.stderr :=
         "Error: You must specify exactly one URL." +:+ main.nl +:+
         main.usage sample.os;
       main.exitCode := 1;
       main.bodyClosed := false |} /\
  (main.run sample.lib sample.friendly sample.answers sample.os
     ["-h"; "https://a/"] map_to_list map_to_list sample.w0).1 =
    {| main.stdout := ""; main.stderr := main.usage sample.os;
       main.exitCode := 0; main.bodyClosed := false |} /\
  main.exitCode
    (main.run sample.lib sample.friendly sample.answers sample.os
       ["-H"; "no colon"; "https://a/"] map_to_list map_to_list sample.w0).1
  = 2.
Proof.
  split; [|split].
  - destruct (X15_main_needs_one_url sample.lib sample.friendly
                sample.answers sample.os ["https://a/"; "https://b/"]
                map_to_list map_to_list sample.w0) as [_ Hurl].
    rewrite (Hurl main.defaults ["https://a/"; "https://b/"] eq_refl);
      [reflexivity|cbn; lia].
  - destruct (X15_main_needs_one_url sample.lib sample.friendly
                sample.answers sample.os ["-h"; "https://a/"]
                map_to_list map_to_list sample.w0) as [Hexit _].
    destruct (Hexit 0 (main.usage sample.os) eq_refl) as [-> _].
    reflexivity.
  - destruct (X15_main_needs_one_url sample.lib sample.friendly
                sample.answers sample.os ["-H"; "no colon"; "https://a/"]
                map_to_list map_to_list sample.w0) as [Hexit _].
    destruct (Hexit 2 _ eq_refl) as [-> _]. reflexivity.
Defined.

Lemma append_assoc (a b c : string) : (a +:+ b) +:+ c = a +:+ b +:+ c.
Proof.
  induction a as [|x a IH]; [reflexivity|].
  rewrite !append_cons. now rewrite IH.
Qed.

Lemma printValues_lines (key : string) (values : list string) :
  main.printValues key values = spec.linesOf (map (pair key) values).
Proof.
  induction values as [|v values IH]; [reflexivity|].
  cbn [main.printValues map spec.linesOf fold_right fst snd].
  fold (spec.linesOf (map (pair key) values)). now rewrite IH.
Qed.

Lemma linesOf_app (occ occ' : list (string * string)) :
  spec.linesOf (occ ++ occ') = spec.linesOf occ +:+ spec.linesOf occ'.
Proof.
  induction occ as [|[k v] occ IH]; [reflexivity|].
  cbn [app spec.linesOf fold_right fst snd].
  fold (spec.linesOf (occ ++ occ')). fold (spec.linesOf occ).
  rewrite IH. now rewrite !append_assoc.
Qed.

Lemma printHeaders_lines (hvisit : list (string * list string)) :
  main.printHeaders hvisit = spec.linesOf (spec.occurrences hvisit).
Proof.
  induction hvisit as [|[k vs] hvisit IH]; [reflexivity|].
  cbn [main.printHeaders spec.occurrences flat_map fst snd].
  fold (spec.occurrences hvisit).
  now rewrite linesOf_app, printValues_lines, IH.
Qed.

(** X16.  The standard output carries the body or nothing.  Either the
    run wrote nothing to the standard output and ended with status 1 or 2,
    or with status 0 after the help of [flag.Parse]; or the flags parsed to
    exactly one argument, [SendRequest] returned a response for the
    parameters of the flags, its body was read, and then the status is 0,
    the standard output is that body and a line feed, and the standard
    error is the status line, one line [key: value] for every value of
    every header of that response, and an empty line.  The world after
    such a run is the world [SendRequest] left. *)
Theorem X16_main_outcome (L : Lib) (N : Network) (client_Do : Do)
    (os : main.OS) (argv : list string)
    (range : gmap string string -> list (string * string))
    (hrange : http.Header -> list (string * list string)) (w : World) :
  (forall h : http.Header, hrange h ≡ₚ map_to_list h) ->
  (main.stdout (main.run L N client_Do os argv range hrange w).1 = "" /\
   main.bodyClosed (main.run L N client_Do os argv range hrange w).1 = false /\
   (main.exitCode (main.run L N client_Do os argv range hrange w).1 = 1 \/
    main.exitCode (main.run L N client_Do os argv range hrange w).1 = 2 \/
    (main.run L N client_Do os argv range hrange w =
       ({| main.stdout := ""; main.stderr := main.usage os;
           main.exitCode := 0; main.bodyClosed := false |}, w) /\
     main.flag_Parse L os main.defaults argv
     = main.Exited 0 (main.usage os)))) \/
  (exists (fl : main.Flags) (target : string) (resp : Response)
          (body : string) (occ : list (string * string)),
     main.flag_Parse L os main.defaults argv = main.Parsed fl [target] /\
     SendRequest L N client_Do
       (main.params L target (main.flag_method fl) (main.flag_ja3 fl)
          (main.flag_data fl) (main.flag_H fl))
       (range (main.flag_H fl)) w
     = (Ok resp, (main.run L N client_Do os argv range hrange w).2) /\
     main.io_ReadAll os resp = Ok body /\
     occ ≡ₚ spec.occurrences (map_to_list (Response_Header resp)) /\
     (main.run L N client_Do os argv range hrange w).1 =
     {| main.stdout := body +:+ main.nl;
        main.stderr :=
          "HTTP/1.1 " +:+ Status resp +:+ main.nl +:+
          spec.linesOf occ +:+ main.nl;
        main.exitCode := 0;
        main.bodyClosed := true |}).
Proof.
  intros Hrange. unfold main.run.
  destruct (main.flag_Parse L os main.defaults argv) as [fl args|code err]
    eqn:Hparse.
  - destruct args as [|target [|b args]];
      try (left; split; [reflexivity|]; split; [reflexivity|]; now left).
    unfold main.main_, bind.
    destruct (SendRequest L N client_Do _ (range (main.flag_H fl)) w)
      as [[resp|e] w'] eqn:Hsend;
      [|left; split; [reflexivity|]; split; [reflexivity|]; now left].
    destruct (main.io_ReadAll os resp) as [body|e] eqn:Hread;
      [|left; split; [reflexivity|]; split; [reflexivity|]; now left].
    right.
    exists fl, target, resp, body,
      (spec.occurrences (hrange (Response_Header resp))).
    split; [reflexivity|]. split; [exact Hsend|]. split; [exact Hread|].
    split.
    + unfold spec.occurrences. now rewrite (Hrange (Response_Header resp)).
    + cbn [fst ret]. now rewrite printHeaders_lines.
  - intros. left. split; [reflexivity|]. split; [reflexivity|].
    destruct (flag_Parse_exit _ _ _ _ _ _ Hparse) as [[-> ->]| ->].
    + right. right. now split.
    + right. now left.
Qed.

(** X16, on inputs: a run against a server that answers [200 OK] with the
    body [hi] ends with status 0 and [hi] on the standard output. *)
Lemma X16_main_outcome_witness :
  main.exitCode
    (main.run sample.lib sample.friendly sample.answers sample.os
       ["-method"; "get"; "https://example.com/"] map_to_list map_to_list
       sample.w0).1 = 0 /\
  main.stdout
    (main.run sample.lib sample.friendly sample.answers sample.os
       ["-method"; "get"; "https://example.com/"] map_to_list map_to_list
       sample.w0).1 = "hi" +:+ main.nl.
Proof.
  destruct (X16_main_outcome sample.lib sample.friendly sample.answers
              sample.os ["-method"; "get"; "https://example.com/"]
              map_to_list map_to_list sample.w0 (fun h => reflexivity _))
    as [(Hout & _)
       |(fl & target & resp & body & occ & Hparse & Hsend & Hread & _ & Hrun)].
  - exfalso. discriminate Hout.
  - rewrite Hrun. cbn [main.exitCode main.stdout]. split; [reflexivity|].
    change (main.Parsed (main.mkFlags "get" "Chrome" "" ∅)
              ["https://example.com/"] = main.Parsed fl [target]) in Hparse.
    injection Hparse as <- <-.
    change (SendRequest _ _ _ _ _ _) with (Ok sample.ok_response, sample.w0)
      in Hsend.
    injection Hsend as <-. injection Hread as <-. reflexivity.
Defined.

(** X17.  The header lines of the output are the values of the response's
    headers, all of them and each once for each time it occurs: whatever
    the order in which the header map is visited, what is printed is the
    line [key: value] for each entry of a list that holds, up to the order
    of the keys, every value of every key as often as the key has it; the
    values of one key are printed together, in their order. *)
Theorem X17_every_response_header_printed (resp : Response)
    (hrange : http.Header -> list (string * list string)) :
  hrange (Response_Header resp) ≡ₚ map_to_list (Response_Header resp) ->
  main.printHeaders (hrange (Response_Header resp)) =
    spec.linesOf (spec.occurrences (hrange (Response_Header resp))) /\
  spec.occurrences (hrange (Response_Header resp)) ≡ₚ
    spec.occurrences (map_to_list (Response_Header resp)) /\
  (forall (key : string) (values : list string),
     Response_Header resp !! key = Some values ->
     exists before after : list (string * string),
       spec.occurrences (hrange (Response_Header resp)) =
         before ++ map (pair key) values ++ after /\
       main.printHeaders (hrange (Response_Header resp)) =
         spec.linesOf before +:+ main.printValues key values +:+
         spec.linesOf after).
Proof.
  intros Hperm.
  split; [apply printHeaders_lines|]. split.
  - unfold spec.occurrences. now rewrite Hperm.
  - intros key values Hkey.
    assert (In (key, values) (hrange (Response_Header resp))) as Hin.
    { apply list_elem_of_In. rewrite Hperm. now apply elem_of_map_to_list. }
    apply in_split in Hin as (l1 & l2 & Heq).
    exists (spec.occurrences l1), (spec.occurrences l2).
    rewrite printHeaders_lines, Heq. unfold spec.occurrences.
    rewrite flat_map_app. cbn [flat_map fst snd].
    split; [reflexivity|].
    now rewrite !linesOf_app, printValues_lines.
Qed.

(** X17, on inputs: the two values of [Server] are printed on two lines,
    in their order. *)
Lemma X17_every_response_header_printed_witness :
  main.printHeaders (map_to_list (Response_Header sample.ok_response)) =
    "Server: a" +:+ main.nl +:+ "Server: b" +:+ main.nl.
Proof.
  destruct (X17_every_response_header_printed sample.ok_response map_to_list
              (reflexivity _)) as (Hlines & _).
  rewrite Hlines. cbn [sample.ok_response Response_Header].
  now rewrite map_to_list_singleton.
Defined.

(** ** What is accepted *)

(** X18.  Whether a request is built depends on its method and its target
    alone: it is built exactly when the method is empty or a token and the
    URL parses, whatever the profile, the headers, the body and the order
    of the visit; and the method of a request that is built is never
    empty. *)
Theorem X18_acceptance (L : Lib) (params : RequestParams)
    (visit : list (string * string)) :
  ((exists req : http.Request, buildRequest L params visit = Ok req) <->
   (Method params = "" \/
    (allBytes isTokenByte (Method params) = true)) /\
   (exists u : url.URL, url_Parse L (URL params) = Ok u)) /\
  (forall req : http.Request,
     buildRequest L params visit = Ok req -> http.Method req <> "").
Proof.
  assert (http.validMethod (methodOrGET (Method params)) = true <->
          Method params = "" \/ allBytes isTokenByte (Method params) = true)
    as Hvalid.
  { unfold methodOrGET.
    destruct (String.eqb_spec (Method params) "") as [->|Hne].
    - split; [now left|reflexivity].
    - unfold http.validMethod.
      assert ((0 <? String.length (Method params)) = true) as ->.
      { destruct (Method params); [contradiction|reflexivity]. }
      cbn [andb]. tauto. }
  split; [split|].
  - intros [req (Hm & u & Hu & _)%buildRequest_Ok].
    split; [now apply Hvalid|now exists u].
  - intros (Hm & u & Hu). exists (assembled L params visit u).
    apply buildRequest_Ok. split; [now apply Hvalid|now exists u].
  - intros req (_ & u & _ & ->)%buildRequest_Ok.
    cbn [assembled http.Method]. unfold methodOrGET.
    destruct (String.eqb_spec (Method params) ""); [discriminate|assumption].
Qed.

Lemma toUpperByte_not_lower (c : ascii) : isLowerByte (toUpperByte c) = false.
Proof. destruct c as [[] [] [] [] [] [] [] []]; reflexivity. Qed.

(** X19.  The CLI sends no lower-case letter in the method: for a [-method]
    flag of ASCII bytes, the method of the request that is built has no
    byte from [a] to [z]. *)
Theorem X19_cli_method_has_no_lower_case (L : Lib)
    (target method ja3Profile data : string) (headers : gmap string string)
    (visit : list (string * string)) (req : http.Request) :
  isASCII method = true ->
  buildRequest L (main.params L target method ja3Profile data headers) visit
  = Ok req ->
  allBytes (fun c => negb (isLowerByte c)) (http.Method req) = true.
Proof.
  intros Hascii (_ & u & _ & ->)%buildRequest_Ok.
  cbn [assembled http.Method main.params Method].
  unfold strings.ToUpper. rewrite Hascii. unfold methodOrGET.
  destruct (String.eqb (mapBytes toUpperByte method) ""); [reflexivity|].
  clear. induction method as [|c method IH]; [reflexivity|].
  cbn [mapBytes allBytes]. now rewrite toUpperByte_not_lower, IH.
Qed.

(** X19, on inputs: [-method pAtch] is sent as [PATCH]. *)
Lemma X19_cli_method_has_no_lower_case_witness :
  allBytes (fun c => negb (isLowerByte c))
    (http.Method
       (assembled sample.lib
          (main.params sample.lib "https://example.com/" "pAtch" "chrome" "" ∅)
          [] sample.example_com)) = true.
Proof.
  apply (X19_cli_method_has_no_lower_case sample.lib "https://example.com/"
           "pAtch" "chrome" "" ∅ [] _ eq_refl).
  apply buildRequest_Ok. split; [reflexivity|].
  exists sample.example_com. split; reflexivity.
Defined.
